(** * QuickNotes: the client state layer of [src/app/page.tsx]

    A shallow embedding of the note-taking client: the zod schema
    [NoteSchema] and [validateNoteOrAlert], the React state of the [Home]
    component, and its asynchronous operations ([loadNotes], [addNote],
    [deleteNote], [updateNote], [signUp], [signIn], [signOut]).

    Modelling choices.
    - A JavaScript string is the list of its UTF-16 code units, so that
      [length] is the [.length] zod compares against.
    - An [async] function is a finite tree of effects ([Prog]): writes to
      the React state, [alert]s, and awaited backend requests whose
      continuation receives the response.
    - A function of the component reads the state variables of the render
      it was created in.  Every operation therefore takes that render's
      state as an argument [snap]; its writes go to the live state.
    - The backend (the supabase client) is external: the interpreter is
      parameterised by a handler giving the response to each request.
      A response is a value, with its [error] field set on failure, as
      the client library returns it; no call throws. *)

From Stdlib Require Import List Bool NArith Ascii String Sorted Lia.
Import ListNotations.

Set Implicit Arguments.

(** ** JavaScript strings *)

Definition jsstring : Type := list N.

Module JS.

(** A literal of the source, all of whose characters are ASCII. *)
Definition lit (s : string) : jsstring :=
  map N_of_ascii (list_ascii_of_string s).
Arguments lit s%_string.

Definition eqb (a b : jsstring) : bool :=
  if list_eq_dec N.eq_dec a b then true else false.

(** ECMAScript WhiteSpace and LineTerminator code points, the characters
    [String.prototype.trim] strips.  All lie in the basic plane. *)
Definition is_space (c : N) : bool :=
  ((9 <=? c) && (c <=? 13)
   || (c =? 32) || (c =? 160) || (c =? 5760)
   || (8192 <=? c) && (c <=? 8202)
   || (c =? 8232) || (c =? 8233) || (c =? 8239) || (c =? 8287)
   || (c =? 12288) || (c =? 65279))%N.

Fixpoint trimStart (s : jsstring) : jsstring :=
  match s with
  | c :: s' => if is_space c then trimStart s' else s
  | [] => []
  end.

Definition trimEnd (s : jsstring) : jsstring := rev (trimStart (rev s)).

Definition trim (s : jsstring) : jsstring := trimEnd (trimStart s).

Definition len (s : jsstring) : N := N.of_nat (List.length s).

(** Truthiness of a [string | null] value: [null] and the empty string are
    falsy. *)
Definition truthy (v : option jsstring) : bool :=
  match v with
  | Some (_ :: _) => true
  | _ => false
  end.

End JS.

(** ** The zod schema *)

Module Zod.

(** The checks a [z.string()] carries, run in the order they were chained. *)
Inductive Check : Type :=
| Trim
| Min (n : N) (message : jsstring)
| Max (n : N) (message : jsstring).

Record Issue : Type := { path : string; message : jsstring }.

(** One pass over the checks: [trim] rewrites the value under test, a
    violated bound appends an issue and the pass goes on. *)
Fixpoint run_checks (key : string) (cs : list Check) (data : jsstring)
  : jsstring * list Issue :=
  match cs with
  | [] => (data, [])
  | Trim :: cs' => run_checks key cs' (JS.trim data)
  | Min n m :: cs' =>
      let '(d, rest) := run_checks key cs' data in
      (d, (if (JS.len data <? n)%N then [{| path := key; message := m |}] else []) ++ rest)
  | Max n m :: cs' =>
      let '(d, rest) := run_checks key cs' data in
      (d, (if (n <? JS.len data)%N then [{| path := key; message := m |}] else []) ++ rest)
  end.

End Zod.

Record Draft : Type := { d_title : jsstring; d_content : jsstring }.

Definition title_too_long_msg : jsstring :=
  JS.lit "Title must be 80 characters or less".
Definition content_empty_msg : jsstring :=
  JS.lit "Content cannot be empty".
Definition content_too_long_msg : jsstring :=
  JS.lit "Content must be 5000 characters or less".

Module NoteSchema.

Definition title : list Zod.Check :=
  [Zod.Trim; Zod.Max 80 title_too_long_msg].

Definition content : list Zod.Check :=
  [Zod.Trim; Zod.Min 1 content_empty_msg; Zod.Max 5000 content_too_long_msg].

(** [safeParse]: the keys of the object are parsed in the order of the
    shape, their issues collected in that order; the parse succeeds when
    there is none. *)
Definition safeParse (t c : jsstring) : list Zod.Issue + Draft :=
  let '(t', it) := Zod.run_checks "title"%string title t in
  let '(c', ic) := Zod.run_checks "content"%string content c in
  match it ++ ic with
  | [] => inr {| d_title := t'; d_content := c' |}
  | issues => inl issues
  end.

End NoteSchema.

(** The pure part of [validateNoteOrAlert]: the message it alerts, or the
    parsed data it returns. *)
Definition validateNote (t c : jsstring) : jsstring + Draft :=
  match NoteSchema.safeParse t c with
  | inl issues =>
      inl (match issues with
           | i :: _ => Zod.message i
           | [] => JS.lit "Invalid input"
           end)
  | inr d => inr d
  end.

(** ** Data of the component *)

Record Note : Type :=
  { id : jsstring; title : jsstring; content : jsstring; created_at : jsstring }.

(** The [useState] cells of [Home].  The cells [title] and [content] are
    named [st_title] and [st_content] here, apart from the fields of a
    note. *)
Record State : Type :=
  { email : jsstring;
    password : jsstring;
    editingId : option jsstring;
    userEmail : option jsstring;
    notes : list Note;
    st_title : jsstring;
    st_content : jsstring;
    loading : bool }.

(** The first render: the initial value of every cell. *)
Definition initial : State :=
  {| email := []; password := []; editingId := None; userEmail := None;
     notes := []; st_title := []; st_content := []; loading := false |}.

(** What the backend client hands back. *)
Record User : Type := { user_id : jsstring; user_email : option jsstring }.
Record Error : Type := { err_message : jsstring }.
Record Rows : Type := { data : option (list Note); error : option Error }.

(** Requests awaited by the component, indexed by the type of the value
    the code reads off the response. *)
Inductive backendE : Type -> Type :=
| GetSession : backendE (option User)
| AuthSignUp (email password : jsstring) : backendE (option Error)
| AuthSignIn (email password : jsstring) : backendE (option Error)
| AuthSignOut : backendE (option Error)
| NotesSelect (columns order_by : jsstring) (ascending : bool) : backendE Rows
| NotesInsert (user_id title content : jsstring) : backendE (option Error)
| NotesDelete (id : jsstring) : backendE (option Error)
| NotesUpdate (title content id : jsstring) : backendE (option Error).

(** Synchronous effects: the state setters and [alert]. *)
Inductive uiE : Type :=
| SetEmail (v : jsstring)
| SetPassword (v : jsstring)
| SetEditingId (v : option jsstring)
| SetUserEmail (v : option jsstring)
| SetNotes (v : list Note)
| SetTitle (v : jsstring)
| SetContent (v : jsstring)
| SetLoading (v : bool)
| Alert (message : jsstring).

(** ** Asynchronous functions as effect trees *)

Inductive Prog (A : Type) : Type :=
| Ret (a : A)
| Do (u : uiE) (k : Prog A)
| Await (X : Type) (e : backendE X) (k : X -> Prog A).
Arguments Ret {A} a.
Arguments Do {A} u k.
Arguments Await {A X} e k.

Fixpoint bind {A B : Type} (p : Prog A) (f : A -> Prog B) : Prog B :=
  match p with
  | Ret a => f a
  | Do u k => Do u (bind k f)
  | Await e k => Await e (fun x => bind (k x) f)
  end.

Definition do (u : uiE) : Prog unit := Do u (Ret tt).
Definition await {X : Type} (e : backendE X) : Prog X := Await e (fun x => Ret x).

Declare Scope prog_scope.
Delimit Scope prog_scope with prog.
Bind Scope prog_scope with Prog.
Notation "x <- p ;; q" := (bind p (fun x => q))
  (at level 61, p at next level, right associativity) : prog_scope.
Notation "p ;; q" := (bind p (fun _ => q))
  (at level 61, right associativity) : prog_scope.
Local Open Scope prog_scope.

(** ** The functions of [Home] *)

(** [validateNoteOrAlert]: alerts the first issue's message and returns
    [null], or returns the parsed data. *)
Definition validateNoteOrAlert (t c : jsstring) : Prog (option Draft) :=
  match validateNote t c with
  | inl m => do (Alert m) ;; Ret None
  | inr d => Ret (Some d)
  end.

Definition refreshSession : Prog unit :=
  session <- await GetSession ;;
  do (SetUserEmail (match session with
                    | Some u => user_email u
                    | None => None
                    end)).

(** [n.id === editingId] *)
Definition id_is (e : option jsstring) (n : Note) : bool :=
  match e with
  | Some i => JS.eqb (id n) i
  | None => false
  end.

Definition loadNotes (snap : State) : Prog unit :=
  do (SetLoading true) ;;
  session <- await GetSession ;;
  match session with
  | None =>
      do (SetNotes []) ;;
      do (SetLoading false)
  | Some _ =>
      r <- await (NotesSelect (JS.lit "id,title,content,created_at")
                              (JS.lit "created_at") false) ;;
      match error r, data r with
      | None, Some nextNotes =>
          do (SetNotes nextNotes) ;;
          if JS.truthy (editingId snap)
             && negb (existsb (id_is (editingId snap)) nextNotes)
          then do (SetEditingId None) ;; do (SetTitle []) ;; do (SetContent [])
          else Ret tt
      | _, _ => Ret tt
      end ;;
      do (SetLoading false)
  end.

Definition signed_up_msg : jsstring :=
  JS.lit "Signed up! If email confirmation is on, check your inbox.".

Definition signUp (snap : State) : Prog unit :=
  do (SetLoading true) ;;
  err <- await (AuthSignUp (email snap) (password snap)) ;;
  do (SetLoading false) ;;
  match err with
  | Some e => do (Alert (err_message e))
  | None => do (Alert signed_up_msg)
  end.

Definition signIn (snap : State) : Prog unit :=
  do (SetLoading true) ;;
  err <- await (AuthSignIn (email snap) (password snap)) ;;
  do (SetLoading false) ;;
  match err with
  | Some e => do (Alert (err_message e))
  | None => Ret tt
  end.

Definition signOut : Prog unit :=
  await AuthSignOut ;; Ret tt.

Definition please_sign_in_msg : jsstring := JS.lit "Please sign in.".

Definition addNote (snap : State) : Prog unit :=
  do (SetLoading true) ;;
  session <- await GetSession ;;
  match session with
  | None =>
      do (Alert please_sign_in_msg) ;;
      do (SetLoading false)
  | Some user =>
      clean <- validateNoteOrAlert (st_title snap) (st_content snap) ;;
      match clean with
      | None => do (SetLoading false)
      | Some d =>
          err <- await (NotesInsert (user_id user) (d_title d) (d_content d)) ;;
          do (SetLoading false) ;;
          match err with
          | Some e => do (Alert (err_message e))
          | None =>
              do (SetTitle []) ;;
              do (SetContent []) ;;
              loadNotes snap
          end
      end
  end.

Definition deleteNote (snap : State) (i : jsstring) : Prog unit :=
  do (SetLoading true) ;;
  err <- await (NotesDelete i) ;;
  do (SetLoading false) ;;
  match err with
  | Some e => do (Alert (err_message e))
  | None => loadNotes snap
  end.

(** The body of the [try] runs to its [return] or to its end; the
    [finally] clause then clears the flag on either path. *)
Definition updateNote (snap : State) : Prog unit :=
  match editingId snap with
  | Some (c :: i) =>
      clean <- validateNoteOrAlert (st_title snap) (st_content snap) ;;
      match clean with
      | None => Ret tt
      | Some d =>
          do (SetLoading true) ;;
          err <- await (NotesUpdate (d_title d) (d_content d) (c :: i)) ;;
          match err with
          | Some e => do (Alert (err_message e))
          | None =>
              do (SetEditingId None) ;;
              do (SetTitle []) ;;
              do (SetContent []) ;;
              loadNotes snap
          end ;;
          do (SetLoading false)
      end
  | _ => Ret tt
  end.

(** The callback registered with [onAuthStateChange] by the mount effect.
    The effect runs once, so the two functions it calls are those of the
    first render: [loadNotes] there reads the initial [editingId]. *)
Definition onAuthStateChange : list (Prog unit) :=
  [refreshSession; loadNotes initial].

(** The click handler of the submit button:
    [onClick={editingId ? updateNote : addNote}]. *)
Definition submit (snap : State) : Prog unit :=
  if JS.truthy (editingId snap) then updateNote snap else addNote snap.

(** ** Running an effect tree *)

Definition apply_ui (u : uiE) (s : State) : State :=
  match u with
  | SetEmail v =>
      {| email := v; password := password s; editingId := editingId s;
         userEmail := userEmail s; notes := notes s; st_title := st_title s;
         st_content := st_content s; loading := loading s |}
  | SetPassword v =>
      {| email := email s; password := v; editingId := editingId s;
         userEmail := userEmail s; notes := notes s; st_title := st_title s;
         st_content := st_content s; loading := loading s |}
  | SetEditingId v =>
      {| email := email s; password := password s; editingId := v;
         userEmail := userEmail s; notes := notes s; st_title := st_title s;
         st_content := st_content s; loading := loading s |}
  | SetUserEmail v =>
      {| email := email s; password := password s; editingId := editingId s;
         userEmail := v; notes := notes s; st_title := st_title s;
         st_content := st_content s; loading := loading s |}
  | SetNotes v =>
      {| email := email s; password := password s; editingId := editingId s;
         userEmail := userEmail s; notes := v; st_title := st_title s;
         st_content := st_content s; loading := loading s |}
  | SetTitle v =>
      {| email := email s; password := password s; editingId := editingId s;
         userEmail := userEmail s; notes := notes s; st_title := v;
         st_content := st_content s; loading := loading s |}
  | SetContent v =>
      {| email := email s; password := password s; editingId := editingId s;
         userEmail := userEmail s; notes := notes s; st_title := st_title s;
         st_content := v; loading := loading s |}
  | SetLoading v =>
      {| email := email s; password := password s; editingId := editingId s;
         userEmail := userEmail s; notes := notes s; st_title := st_title s;
         st_content := st_content s; loading := v |}
  | Alert _ => s
  end.

(** What an observer outside the component sees: the messages shown to
    the user and the requests sent to the backend. *)
Inductive Obs : Type :=
| Alerted (message : jsstring)
| Requested (X : Type) (e : backendE X).
Arguments Requested {X} e.

Definition obs_of (u : uiE) : list Obs :=
  match u with
  | Alert m => [Alerted m]
  | _ => []
  end.

Definition is_alert (o : Obs) : bool :=
  match o with
  | Alerted _ => true
  | Requested _ => false
  end.

(** The requests that write to the [notes] table. *)
Definition is_write (o : Obs) : bool :=
  match o with
  | Requested (NotesInsert _ _ _) => true
  | Requested (NotesDelete _) => true
  | Requested (NotesUpdate _ _ _) => true
  | _ => false
  end.

Definition is_select (o : Obs) : bool :=
  match o with
  | Requested (NotesSelect _ _ _) => true
  | _ => false
  end.

Record Outcome (B : Type) : Type :=
  { ui : State; backend : B; trace : list Obs }.

Definition after {B : Type} (pre : list Obs) (o : Outcome B) : Outcome B :=
  {| ui := ui o; backend := backend o; trace := pre ++ trace o |}.

Section Run.

(** The backend: a state and its answer to each request. *)
Variable B : Type.
Variable handle : forall X : Type, backendE X -> B -> X * B.

(** The function run alone from [s] to its end, every awaited request
    answered in turn. *)
Fixpoint run (p : Prog unit) (s : State) (b : B) : Outcome B :=
  match p with
  | Ret _ => {| ui := s; backend := b; trace := [] |}
  | Do u k => after (obs_of u) (run k (apply_ui u s) b)
  | Await e k =>
      let '(x, b') := handle e b in
      after [Requested e] (run (k x) s b')
  end.

Definition then_run (o : Outcome B) (p : Prog unit) : Outcome B :=
  after (trace o) (run p (ui o) (backend o)).

End Run.

(** ** The event loop

    Between two awaits a function runs without interruption; at an await
    it is parked until its response arrives, and other handlers may run. *)

Inductive Op : Type :=
| OpSignUp | OpSignIn | OpSignOut | OpCreate | OpUpdate | OpDelete
| OpLoad | OpSession | OpLocal.

Definition mutating (o : Op) : bool :=
  match o with
  | OpLoad | OpSession | OpLocal => false
  | _ => true
  end.

(** A function parked at an await. *)
Inductive Task : Type :=
| Waiting (o : Op) (X : Type) (e : backendE X) (k : X -> Prog unit).
Arguments Waiting o {X} e k.

Definition task_op (t : Task) : Op :=
  match t with Waiting o _ _ => o end.

Definition task_obs (t : Task) : Obs :=
  match t with Waiting _ e _ => Requested e end.

(** Run a function up to its next await. *)
Fixpoint advance (o : Op) (p : Prog unit) (s : State)
  : State * list Obs * list Task :=
  match p with
  | Ret _ => (s, [], [])
  | Do u k =>
      let '(s', tr, ts) := advance o k (apply_ui u s) in
      (s', obs_of u ++ tr, ts)
  | Await e k => (s, [Requested e], [Waiting o e k])
  end.

(** The controls of the page. *)
Inductive Action : Type :=
| TypeEmail (v : jsstring)
| TypePassword (v : jsstring)
| TypeTitle (v : jsstring)
| TypeContent (v : jsstring)
| ClickSignIn
| ClickSignUp
| ClickSignOut
| ClickSubmit
| ClickCancel
| ClickRefresh
| ClickEdit (n : Note)
| ClickDelete (n : Note).

Definition note_eqb (a b : Note) : bool :=
  JS.eqb (id a) (id b) && JS.eqb (title a) (title b)
  && JS.eqb (content a) (content b) && JS.eqb (created_at a) (created_at b).

(** A control can be used when it is rendered and not [disabled]. *)
Definition enabled (s : State) (a : Action) : bool :=
  match a with
  | TypeEmail _ | TypePassword _ => negb (JS.truthy (userEmail s))
  | TypeTitle _ | TypeContent _ => JS.truthy (userEmail s)
  | ClickSignIn | ClickSignUp =>
      negb (JS.truthy (userEmail s)) && negb (loading s)
  | ClickSignOut | ClickSubmit => JS.truthy (userEmail s) && negb (loading s)
  | ClickCancel =>
      JS.truthy (userEmail s) && JS.truthy (editingId s) && negb (loading s)
  | ClickRefresh => negb (loading s)
  | ClickEdit n | ClickDelete n => existsb (note_eqb n) (notes s) && negb (loading s)
  end.

(** The handler of a control, as the render of state [s] created it. *)
Definition handler (s : State) (a : Action) : Op * Prog unit :=
  match a with
  | TypeEmail v => (OpLocal, do (SetEmail v))
  | TypePassword v => (OpLocal, do (SetPassword v))
  | TypeTitle v => (OpLocal, do (SetTitle v))
  | TypeContent v => (OpLocal, do (SetContent v))
  | ClickSignIn => (OpSignIn, signIn s)
  | ClickSignUp => (OpSignUp, signUp s)
  | ClickSignOut => (OpSignOut, signOut)
  | ClickSubmit =>
      (if JS.truthy (editingId s) then OpUpdate else OpCreate, submit s)
  | ClickCancel =>
      (OpLocal,
       do (SetEditingId None) ;; do (SetTitle []) ;; do (SetContent []))
  | ClickRefresh => (OpLoad, loadNotes s)
  | ClickEdit n =>
      (OpLocal,
       do (SetEditingId (Some (id n))) ;; do (SetTitle (title n)) ;;
       do (SetContent (content n)))
  | ClickDelete n => (OpDelete, deleteNote s (id n))
  end.

Inductive Input : Type :=
| Ui (a : Action)
| Respond (n : nat)
| AuthEvent.

Record Config (B : Type) : Type :=
  { c_ui : State; c_backend : B; c_tasks : list Task; c_log : list Obs }.

Fixpoint remove_nth {A : Type} (n : nat) (l : list A) : list A :=
  match n, l with
  | _, [] => []
  | O, _ :: l' => l'
  | S n', x :: l' => x :: remove_nth n' l'
  end.

Section Loop.

Variable B : Type.
Variable handle : forall X : Type, backendE X -> B -> X * B.

Definition spawn (o : Op) (p : Prog unit) (c : Config B) : Config B :=
  let '(s', tr, ts) := advance o p (c_ui c) in
  {| c_ui := s'; c_backend := c_backend c;
     c_tasks := c_tasks c ++ ts; c_log := c_log c ++ tr |}.

Definition resume (t : Task) (c : Config B) : Config B :=
  match t with
  | Waiting o e k =>
      let '(x, b') := handle e (c_backend c) in
      spawn o (k x)
        {| c_ui := c_ui c; c_backend := b';
           c_tasks := c_tasks c; c_log := c_log c |}
  end.

Definition step (c : Config B) (i : Input) : option (Config B) :=
  match i with
  | Ui a =>
      if enabled (c_ui c) a then
        let '(o, p) := handler (c_ui c) a in
        Some (spawn o p c)
      else None
  | Respond n =>
      match nth_error (c_tasks c) n with
      | Some t =>
          Some (resume t
                  {| c_ui := c_ui c; c_backend := c_backend c;
                     c_tasks := remove_nth n (c_tasks c); c_log := c_log c |})
      | None => None
      end
  | AuthEvent =>
      Some (spawn OpLoad (loadNotes initial) (spawn OpSession refreshSession c))
  end.

Fixpoint exec (c : Config B) (inputs : list Input) : option (Config B) :=
  match inputs with
  | [] => Some c
  | i :: rest =>
      match step c i with
      | Some c' => exec c' rest
      | None => None
      end
  end.

(** The mount effect: [refreshSession(); ...; loadNotes();]. *)
Definition mount (b : B) : Config B :=
  spawn OpLoad (loadNotes initial)
    (spawn OpSession refreshSession
       {| c_ui := initial; c_backend := b; c_tasks := []; c_log := [] |}).

End Loop.

(** ** A reference backend

    Modelled from the spec: the backend data service (section 6), which is
    external to the repository: password accounts, one session, and a
    [notes] table whose rows are readable and writable by their owner
    only.  Identifiers and creation timestamps are assigned by the server,
    here drawn from a supply.  It serves to run the model on concrete
    inputs; the general statements below hold for every backend. *)

Module Server.

Record Row : Type := { owner : jsstring; row : Note }.
Record Account : Type :=
  { acc_email : jsstring; acc_password : jsstring; acc_user : User }.

Record t : Type :=
  { session : option User;
    accounts : list Account;
    table : list Row;
    supply : list (jsstring * jsstring);
    outage : option Error }.

Fixpoint leb (a b : jsstring) : bool :=
  match a, b with
  | [], _ => true
  | _ :: _, [] => false
  | x :: a', y :: b' => (x <? y)%N || (x =? y)%N && leb a' b'
  end.

(** Insertion into a list ordered by [created_at], newest first. *)
Fixpoint insert_desc (n : Note) (l : list Note) : list Note :=
  match l with
  | [] => [n]
  | m :: l' =>
      if leb (created_at m) (created_at n) then n :: l
      else m :: insert_desc n l'
  end.

Definition sort_desc (l : list Note) : list Note :=
  fold_right insert_desc [] l.

Definition owned (sv : t) (r : Row) : bool :=
  match session sv with
  | Some u => JS.eqb (owner r) (user_id u)
  | None => false
  end.

Definition visible (sv : t) : list Note :=
  map row (filter (owned sv) (table sv)).

Definition with_session (v : option User) (sv : t) : t :=
  {| session := v; accounts := accounts sv; table := table sv;
     supply := supply sv; outage := outage sv |}.

Definition with_table (v : list Row) (sv : t) : t :=
  {| session := session sv; accounts := accounts sv; table := v;
     supply := supply sv; outage := outage sv |}.

Definition denied : Error :=
  {| err_message := JS.lit "new row violates row-level security policy" |}.
Definition bad_login : Error :=
  {| err_message := JS.lit "Invalid login credentials" |}.

Definition rewrite_row (t c i : jsstring) (sv : Server.t) (r : Row) : Row :=
  if owned sv r && JS.eqb (id (row r)) i then
    {| owner := owner r;
       row := {| id := i; title := t; content := c;
                 created_at := created_at (row r) |} |}
  else r.

Definition serve (X : Type) (e : backendE X) (sv : t) : X * t :=
  match e in backendE X return X * t with
  | GetSession => (session sv, sv)
  | AuthSignUp e p =>
      (None,
       {| session := session sv;
          accounts :=
            accounts sv
            ++ [{| acc_email := e; acc_password := p;
                   acc_user := {| user_id := e; user_email := Some e |} |}];
          table := table sv; supply := supply sv; outage := outage sv |})
  | AuthSignIn e p =>
      match find (fun a => JS.eqb (acc_email a) e && JS.eqb (acc_password a) p)
                 (accounts sv) with
      | Some a => (None, with_session (Some (acc_user a)) sv)
      | None => (Some bad_login, sv)
      end
  | AuthSignOut => (None, with_session None sv)
  | NotesSelect _ _ asc =>
      match outage sv with
      | Some err => ({| data := None; error := Some err |}, sv)
      | None =>
          let l := sort_desc (visible sv) in
          ({| data := Some (if asc then rev l else l); error := None |}, sv)
      end
  | NotesInsert u t c =>
      match outage sv, session sv, supply sv with
      | Some err, _, _ => (Some err, sv)
      | None, Some who, (i, ts) :: rest =>
          if JS.eqb (user_id who) u then
            (None,
             {| session := session sv; accounts := accounts sv;
                table :=
                  table sv
                  ++ [{| owner := u;
                         row := {| id := i; title := t; content := c;
                                   created_at := ts |} |}];
                supply := rest; outage := outage sv |})
          else (Some denied, sv)
      | None, _, _ => (Some denied, sv)
      end
  | NotesDelete i =>
      match outage sv with
      | Some err => (Some err, sv)
      | None =>
          (None,
           with_table
             (filter (fun r => negb (owned sv r && JS.eqb (id (row r)) i))
                     (table sv))
             sv)
      end
  | NotesUpdate t c i =>
      match outage sv with
      | Some err => (Some err, sv)
      | None => (None, with_table (map (rewrite_row t c i sv) (table sv)) sv)
      end
  end.

End Server.

(** ** Concrete data *)

Module Fixture.

Definition alice : User :=
  {| user_id := JS.lit "u-alice";
     user_email := Some (JS.lit "alice@example.com") |}.
Definition bob : User :=
  {| user_id := JS.lit "u-bob";
     user_email := Some (JS.lit "bob@example.com") |}.

(** A signed-in user whose account has no e-mail address. *)
Definition guest : User :=
  {| user_id := JS.lit "u-guest"; user_email := None |}.

Definition n1 : Note :=
  {| id := JS.lit "n1"; title := JS.lit "Shopping"; content := JS.lit "milk";
     created_at := JS.lit "2024-01-01T10:00:00+00:00" |}.
Definition n2 : Note :=
  {| id := JS.lit "n2"; title := JS.lit "Ideas";
     content := JS.lit "write more";
     created_at := JS.lit "2024-01-02T09:30:00+00:00" |}.
Definition n3 : Note :=
  {| id := JS.lit "n3"; title := JS.lit "Plans"; content := JS.lit "private";
     created_at := JS.lit "2024-01-01T12:00:00+00:00" |}.

(** Two accounts; [n1] and [n2] belong to Alice, [n3] to Bob. *)
Definition server (who : option User) (down : option Error) : Server.t :=
  {| Server.session := who;
     Server.accounts :=
       [{| Server.acc_email := JS.lit "alice@example.com";
           Server.acc_password := JS.lit "pw-a"; Server.acc_user := alice |};
        {| Server.acc_email := JS.lit "bob@example.com";
           Server.acc_password := JS.lit "pw-b"; Server.acc_user := bob |}];
     Server.table :=
       [{| Server.owner := user_id alice; Server.row := n1 |};
        {| Server.owner := user_id bob; Server.row := n3 |};
        {| Server.owner := user_id alice; Server.row := n2 |}];
     Server.supply := [(JS.lit "n4", JS.lit "2024-01-03T08:00:00+00:00")];
     Server.outage := down |}.

Definition timeout : Error := {| err_message := JS.lit "Failed to fetch" |}.

(** Alice signed in, her notes loaded, no edit in progress, a draft typed. *)
Definition drafting : State :=
  {| email := JS.lit "alice@example.com"; password := JS.lit "pw-a";
     editingId := None; userEmail := user_email alice;
     notes := [n2; n1]; st_title := JS.lit " Todo ";
     st_content := JS.lit "call home"; loading := false |}.

(** Alice signed in, her notes loaded, editing [n1]. *)
Definition editing_n1 : State :=
  {| email := JS.lit "alice@example.com"; password := JS.lit "pw-a";
     editingId := Some (id n1); userEmail := user_email alice;
     notes := [n2; n1]; st_title := title n1; st_content := content n1;
     loading := false |}.

(** The server after [n1] was deleted from another client. *)
Definition n1_deleted : Server.t :=
  snd (Server.serve (NotesDelete (id n1)) (server (Some alice) None)).

(** Alice has typed a content of spaces only. *)
Definition blank_draft : State :=
  {| email := JS.lit "alice@example.com"; password := JS.lit "pw-a";
     editingId := None; userEmail := user_email alice;
     notes := [n2; n1]; st_title := JS.lit "Todo";
     st_content := JS.lit "   "; loading := false |}.

(** Alice edits [n1] and has erased its content. *)
Definition editing_blank : State :=
  {| email := JS.lit "alice@example.com"; password := JS.lit "pw-a";
     editingId := Some (id n1); userEmail := user_email alice;
     notes := [n2; n1]; st_title := title n1; st_content := [];
     loading := false |}.

Definition at_rest (s : State) (b : Server.t) : Config Server.t :=
  {| c_ui := s; c_backend := b; c_tasks := []; c_log := [] |}.

End Fixture.

(** ** The validator *)

(** The three rules of the schema, as conditions on the trimmed values. *)
Inductive Rule : Type := TitleLength | ContentPresent | ContentLength.

Definition satisfied (r : Rule) (t c : jsstring) : bool :=
  match r with
  | TitleLength => (JS.len (JS.trim t) <=? 80)%N
  | ContentPresent => (1 <=? JS.len (JS.trim c))%N
  | ContentLength => (JS.len (JS.trim c) <=? 5000)%N
  end.

Definition rule_message (r : Rule) : jsstring :=
  match r with
  | TitleLength => title_too_long_msg
  | ContentPresent => content_empty_msg
  | ContentLength => content_too_long_msg
  end.

Definition priority : list Rule := [TitleLength; ContentPresent; ContentLength].

Definition first_violated (t c : jsstring) : option Rule :=
  find (fun r => negb (satisfied r t c)) priority.

(** The position of a rule in the order the schema checks them. *)
Definition rank (r : Rule) : nat :=
  match r with
  | TitleLength => 0
  | ContentPresent => 1
  | ContentLength => 2
  end.

(** The messages as section 4.1 of the specification words them. *)
Definition stated_message (r : Rule) : jsstring :=
  match r with
  | TitleLength => JS.lit "Title too long"
  | ContentPresent => JS.lit "Content empty"
  | ContentLength => JS.lit "Content too long"
  end.

(** C3 as the specification states it, at one input. *)
Definition stated_messages_hold (t c : jsstring) : Prop :=
  forall m, validateNote t c = inl m ->
    ((80 < JS.len (JS.trim t))%N -> m = stated_message TitleLength)
    /\ (JS.len (JS.trim c) = 0%N -> m = stated_message ContentPresent)
    /\ ((5000 < JS.len (JS.trim c))%N -> m = stated_message ContentLength).

(** The requests that only read. *)
Definition is_read {X : Type} (e : backendE X) : bool :=
  match e with
  | GetSession => true
  | NotesSelect _ _ _ => true
  | _ => false
  end.

(** The query [loadNotes] sends. *)
Definition select_newest_first : backendE Rows :=
  NotesSelect (JS.lit "id,title,content,created_at") (JS.lit "created_at") false.

(** A list of notes in which no note is followed by a newer one, for an
    order [le] on timestamps. *)
Definition newest_first (le : jsstring -> jsstring -> Prop) (l : list Note)
  : Prop :=
  StronglySorted (fun a b => le (created_at b) (created_at a)) l.

(** The state with the busy flag cleared and nothing else touched. *)
Definition idle (s : State) : State := apply_ui (SetLoading false) s.

(** The draft emptied, as after a successful create. *)
Definition emptied (s : State) : State :=
  apply_ui (SetContent []) (apply_ui (SetTitle []) s).

(** Edit target and draft cleared, as after a successful update. *)
Definition closed (s : State) : State :=
  emptied (apply_ui (SetEditingId None) s).

(** An attempt was refused for want of a session and wrote nothing. *)
Definition refused_without_write {B : Type} (o : Outcome B) : Prop :=
  In (Alerted please_sign_in_msg) (trace o)
  /\ existsb is_write (trace o) = false.

(** Every await the function can reach from [s], whatever the answers,
    is reached with the busy flag set. *)
Fixpoint busy_at_awaits {A : Type} (p : Prog A) (s : State) : Prop :=
  match p with
  | Ret _ => True
  | Do u k => busy_at_awaits k (apply_ui u s)
  | Await e k => loading s = true /\ forall x, busy_at_awaits (k x) s
  end.

(** What is parked in a configuration: the operations and their requests. *)
Definition parked {B : Type} (c : Config B) : list (Op * Obs) :=
  map (fun t => (task_op t, task_obs t)) (c_tasks c).

(** ** Further notions used below *)

Definition all_space (s : jsstring) : bool := forallb JS.is_space s.

(** The string does not begin with a whitespace character. *)
Definition clean_start (s : jsstring) : bool :=
  match s with
  | [] => true
  | c :: _ => negb (JS.is_space c)
  end.

(** Neither edge of the string is a whitespace character. *)
Definition clean_edges (s : jsstring) : bool :=
  clean_start s && clean_start (rev s).

(** A draft within the limits of the schema and trimmed. *)
Definition well_formed (t c : jsstring) : bool :=
  (JS.len t <=? 80)%N && (1 <=? JS.len c)%N && (JS.len c <=? 5000)%N
  && clean_edges t && clean_edges c.

(** A request is either no write of a draft, or the write of a
    well-formed one. *)
Definition sound_write (o : Obs) : bool :=
  match o with
  | Requested (NotesInsert _ t c) => well_formed t c
  | Requested (NotesUpdate t c _) => well_formed t c
  | _ => true
  end.

Definition is_request (o : Obs) : bool := negb (is_alert o).

(** The form as the user sees it: edit target and draft. *)
Definition form (s : State) : option jsstring * jsstring * jsstring :=
  (editingId s, st_title s, st_content s).

(** Every state write the function can perform, whatever the answers it
    receives, is one of the [allowed] ones. *)
Fixpoint writes_only {A : Type} (allowed : uiE -> bool) (p : Prog A) : Prop :=
  match p with
  | Ret _ => True
  | Do u k => allowed u = true /\ writes_only allowed k
  | Await _ k => forall x, writes_only allowed (k x)
  end.

(** The writes of the data operations: list, busy flag, form, alerts. *)
Definition page_write (u : uiE) : bool :=
  match u with
  | SetEmail _ | SetPassword _ | SetUserEmail _ => false
  | _ => true
  end.

Definition session_write (u : uiE) : bool :=
  match u with
  | SetUserEmail _ => true
  | _ => false
  end.

(** Writes that can only empty the form, never fill it. *)
Definition reset_write (u : uiE) : bool :=
  match u with
  | SetEditingId None | SetTitle [] | SetContent [] => true
  | SetNotes _ | SetLoading _ | Alert _ => true
  | _ => false
  end.

Definition is_respond (i : Input) : bool :=
  match i with
  | Respond _ => true
  | _ => false
  end.

(** ** The error boundary and its logger ([error.tsx], [logError]) *)

Module Log.

(** A JavaScript value, as far as the logger tells values apart. *)
Inductive value : Type :=
| Undefined
| Str (s : jsstring)
| Opaque (tag : N).

(** An object: its own properties, in the order they were created.  The
    special enumeration order of integer-like keys is not modelled;
    objects are read by key. *)
Definition object : Type := list (jsstring * value).

Fixpoint lookup (k : jsstring) (o : object) : option value :=
  match o with
  | [] => None
  | (k', v) :: o' => if JS.eqb k' k then Some v else lookup k o'
  end.

(** Defining a property: an existing key keeps its place and takes the
    new value, a new key goes last. *)
Fixpoint assign (k : jsstring) (v : value) (o : object) : object :=
  match o with
  | [] => [(k, v)]
  | (k', v') :: o' =>
      if JS.eqb k' k then (k', v) :: o' else (k', v') :: assign k v o'
  end.

(** [{...dst, ...src}] *)
Definition spread (src dst : object) : object :=
  fold_left (fun acc kv => assign (fst kv) (snd kv) acc) src dst.

Definition optional (s : option jsstring) : value :=
  match s with
  | Some x => Str x
  | None => Undefined
  end.

(** An [Error] with the optional [digest] the framework attaches. *)
Record JsError : Type :=
  { name : jsstring; message : jsstring;
    stack : option jsstring; digest : option jsstring }.

(** A caught value: an [Error], or anything else. *)
Inductive thrown : Type :=
| IsError (e : JsError)
| NotError (v : value).

(** A call of [console.error]: the label and the payload. *)
Definition entry : Type := (jsstring * object)%type.

(** [logError(context, error, extra)] at the instant [now] (the value of
    [new Date().toISOString()]); [extra] is [None] when omitted. *)
Definition logError (now : jsstring) (context : jsstring) (error : thrown)
           (extra : option object) : entry :=
  let err :=
    match error with
    | IsError e =>
        [(JS.lit "name", Str (name e)); (JS.lit "message", Str (message e));
         (JS.lit "stack", optional (stack e))]
    | NotError v => [(JS.lit "value", v)]
    end in
  (JS.lit "[QuickNotes] " ++ context,
   assign (JS.lit "ts") (Str now)
     (spread (match extra with Some x => x | None => [] end)
        (spread err []))).

(** What the logger reads off the caught value, by key. *)
Definition described (error : thrown) (k : jsstring) : option value :=
  match error with
  | IsError e =>
      if JS.eqb (JS.lit "name") k then Some (Str (name e))
      else if JS.eqb (JS.lit "message") k then Some (Str (message e))
      else if JS.eqb (JS.lit "stack") k then Some (optional (stack e))
      else None
  | NotError v => if JS.eqb (JS.lit "value") k then Some v else None
  end.

(** The value an object literal's spread of [o] leaves under [k]: that of
    the last property of [o] with this key. *)
Definition last_of (k : jsstring) (o : object) : option value :=
  lookup k (rev o).

(** One run of the effect of [GlobalError]: [hasLoggedRef.current] before,
    and after with what was logged. *)
Definition effect (now : jsstring) (hasLogged : bool) (error : JsError)
  : bool * list entry :=
  if hasLogged then (true, [])
  else (true,
        [logError now (JS.lit "app.errorBoundary") (IsError error)
           (Some [(JS.lit "digest", optional (digest error))])]).

(** The effect run once for each element, in order, on one mounted
    boundary: each is the instant and the [error] prop of that run. *)
Fixpoint effects (hasLogged : bool) (runs : list (jsstring * JsError))
  : bool * list entry :=
  match runs with
  | [] => (hasLogged, [])
  | (now, e) :: rest =>
      let '(r, out) := effect now hasLogged e in
      let '(r', out') := effects r rest in
      (r', out ++ out')
  end.

End Log.

(** An error as the framework hands it to the boundary. *)
Definition crash : Log.JsError :=
  {| Log.name := JS.lit "TypeError"; Log.message := JS.lit "x is undefined";
     Log.stack := Some (JS.lit "at Home"); Log.digest := Some (JS.lit "4021") |}.

(** * Properties *)

(** ** Validation *)

Lemma safeParse_issues (t c : jsstring) :
  NoteSchema.safeParse t c =
  match
    (if (80 <? JS.len (JS.trim t))%N
     then [{| Zod.path := "title"; Zod.message := title_too_long_msg |}]
     else [])
    ++ (if (JS.len (JS.trim c) <? 1)%N
        then [{| Zod.path := "content"; Zod.message := content_empty_msg |}]
        else [])
    ++ (if (5000 <? JS.len (JS.trim c))%N
        then [{| Zod.path := "content"; Zod.message := content_too_long_msg |}]
        else [])
  with
  | [] => inr {| d_title := JS.trim t; d_content := JS.trim c |}
  | issues => inl issues
  end.
Proof.
  unfold NoteSchema.safeParse, NoteSchema.title, NoteSchema.content.
  cbn [Zod.run_checks].
  now rewrite !app_nil_r.
Qed.

Lemma validateNote_first_violated (t c : jsstring) :
  validateNote t c =
  match first_violated t c with
  | Some r => inl (rule_message r)
  | None => inr {| d_title := JS.trim t; d_content := JS.trim c |}
  end.
Proof.
  unfold validateNote, first_violated, priority, satisfied.
  rewrite safeParse_issues. cbn [find].
  rewrite <- !N.ltb_antisym.
  destruct (80 <? JS.len (JS.trim t))%N; cbn; [reflexivity |].
  destruct (JS.len (JS.trim c) <? 1)%N; cbn; [reflexivity |].
  destruct (5000 <? JS.len (JS.trim c))%N; reflexivity.
Qed.

Lemma first_violated_spec (t c : jsstring) (r : Rule) :
  first_violated t c = Some r ->
  satisfied r t c = false
  /\ forall r', rank r' < rank r -> satisfied r' t c = true.
Proof.
  unfold first_violated, priority. cbn [find].
  destruct (satisfied TitleLength t c) eqn:Ht; cbn [negb].
  - destruct (satisfied ContentPresent t c) eqn:Hp; cbn [negb].
    + destruct (satisfied ContentLength t c) eqn:Hl; cbn [negb];
        [discriminate |].
      intros [= <-]. split; [assumption |].
      intros [] Hr; cbn in Hr; try assumption; lia.
    + intros [= <-]. split; [assumption |].
      intros [] Hr; cbn in Hr; try assumption; lia.
  - intros [= <-]. split; [assumption |].
    intros [] Hr; cbn in Hr; lia.
Qed.

Lemma first_violated_none (t c : jsstring) :
  first_violated t c = None <->
  (JS.len (JS.trim t) <= 80 /\ 1 <= JS.len (JS.trim c) <= 5000)%N.
Proof.
  unfold first_violated, priority, satisfied. cbn [find].
  destruct (N.leb_spec (JS.len (JS.trim t)) 80);
    destruct (N.leb_spec 1 (JS.len (JS.trim c)));
    destruct (N.leb_spec (JS.len (JS.trim c)) 5000);
    cbn [negb]; split; try discriminate; try reflexivity; lia.
Qed.

(** C4. When the trimmed title has at most 80 code units and the trimmed
    content between 1 and 5000, validation succeeds and returns both
    values trimmed.  On every other input it fails, and the message is
    that of the first violated rule in the order title length, content
    present, content length: every rule before it holds. *)
Theorem validateNote_contract (t c : jsstring) :
  ((JS.len (JS.trim t) <= 80 /\ 1 <= JS.len (JS.trim c) <= 5000)%N ->
   validateNote t c = inr {| d_title := JS.trim t; d_content := JS.trim c |})
  /\
  (~ (JS.len (JS.trim t) <= 80 /\ 1 <= JS.len (JS.trim c) <= 5000)%N ->
   exists r,
     satisfied r t c = false
     /\ (forall r', rank r' < rank r -> satisfied r' t c = true)
     /\ validateNote t c = inl (rule_message r)).
Proof.
  rewrite validateNote_first_violated. split; intros H.
  - apply first_violated_none in H. now rewrite H.
  - destruct (first_violated t c) as [r |] eqn:E.
    + exists r. destruct (first_violated_spec _ _ E) as [Hr Hbefore].
      repeat split; assumption.
    + exfalso. apply H. now apply first_violated_none.
Qed.

Lemma validateNote_contract_witness :
  validateNote (JS.lit "  A ") (JS.lit " B  ")
  = inr {| d_title := JS.lit "A"; d_content := JS.lit "B" |}.
Proof.
  apply (proj1 (validateNote_contract (JS.lit "  A ") (JS.lit " B  "))).
  vm_compute. repeat split; discriminate.
Defined.

(** C3 (as amended).  When validation fails, the message is
    "Title must be 80 characters or less" if the trimmed title exceeds 80
    code units; otherwise "Content cannot be empty" if the trimmed content
    is empty; otherwise "Content must be 5000 characters or less", the
    trimmed content then exceeding 5000 code units. *)
Theorem validateNote_messages (t c m : jsstring) :
  validateNote t c = inl m ->
  ((80 < JS.len (JS.trim t))%N -> m = title_too_long_msg)
  /\ ((JS.len (JS.trim t) <= 80)%N -> JS.len (JS.trim c) = 0%N ->
      m = content_empty_msg)
  /\ ((JS.len (JS.trim t) <= 80)%N -> (5000 < JS.len (JS.trim c))%N ->
      m = content_too_long_msg)
  /\ ((80 < JS.len (JS.trim t))%N \/ JS.len (JS.trim c) = 0%N
      \/ (5000 < JS.len (JS.trim c))%N).
Proof.
  rewrite validateNote_first_violated.
  unfold first_violated, priority, satisfied. cbn [find].
  destruct (N.leb_spec (JS.len (JS.trim t)) 80);
    destruct (N.leb_spec 1 (JS.len (JS.trim c)));
    destruct (N.leb_spec (JS.len (JS.trim c)) 5000);
    cbn [negb rule_message]; intros [= <-];
    repeat split; intros; try reflexivity; lia.
Qed.

Lemma validateNote_messages_witness :
  ((80 < JS.len (JS.trim (repeat 97%N 81)))%N ->
   title_too_long_msg = title_too_long_msg)
  /\ ((JS.len (JS.trim (repeat 97%N 81)) <= 80)%N ->
      JS.len (JS.trim (JS.lit "ok")) = 0%N ->
      title_too_long_msg = content_empty_msg)
  /\ ((JS.len (JS.trim (repeat 97%N 81)) <= 80)%N ->
      (5000 < JS.len (JS.trim (JS.lit "ok")))%N ->
      title_too_long_msg = content_too_long_msg)
  /\ ((80 < JS.len (JS.trim (repeat 97%N 81)))%N
      \/ JS.len (JS.trim (JS.lit "ok")) = 0%N
      \/ (5000 < JS.len (JS.trim (JS.lit "ok")))%N).
Proof.
  apply (validateNote_messages (repeat 97%N 81) (JS.lit "ok")).
  vm_compute. reflexivity.
Defined.

(** C3, as stated, fails: a title of 81 letters is rejected with the
    schema's own message, which is not the text "Title too long". *)
Lemma stated_messages_counterexample :
  ~ stated_messages_hold (repeat 97%N 81) (JS.lit "ok").
Proof.
  intros H.
  destruct (H title_too_long_msg) as [Ht _]; [vm_compute; reflexivity |].
  assert (L : (80 < JS.len (JS.trim (repeat 97%N 81)))%N)
    by (vm_compute; reflexivity).
  specialize (Ht L). vm_compute in Ht. discriminate Ht.
Qed.

(** ** Operations run alone *)

Lemma idle_when_idle (s : State) : loading s = false -> idle s = s.
Proof. destruct s; cbn; now intros ->. Qed.

Lemma JS_eqb_eq (a b : jsstring) : JS.eqb a b = true <-> a = b.
Proof.
  unfold JS.eqb. destruct (list_eq_dec N.eq_dec a b); split; congruence.
Qed.

Ltac answer H := cbn [run bind do await]; rewrite H.

Section Alone.

Variable B : Type.
Variable handle : forall X : Type, backendE X -> B -> X * B.

Lemma run_seq (p q : Prog unit) (s : State) (b : B) :
  run handle (p ;; q) s b = then_run handle (run handle p s b) q.
Proof.
  revert s b.
  induction p as [[] | u k IH | X e k IH]; intros s b; cbn [bind run].
  - unfold then_run, after. cbn. now destruct (run handle q s b).
  - rewrite IH. unfold then_run, after. cbn. now rewrite app_assoc.
  - destruct (handle e b) as [x b']. rewrite IH.
    unfold then_run, after. cbn. reflexivity.
Qed.

(** [loadNotes] when there is no session. *)
Lemma loadNotes_signed_out (snap s : State) (b b' : B) :
  handle GetSession b = (None, b') ->
  run handle (loadNotes snap) s b
  = {| ui := idle (apply_ui (SetNotes []) (apply_ui (SetLoading true) s));
       backend := b'; trace := [Requested GetSession] |}.
Proof.
  intros H. unfold loadNotes. answer H. reflexivity.
Qed.

(** [loadNotes] when the rows arrive. *)
Lemma loadNotes_fetched (snap s : State) (b b1 b2 : B) (u : User)
      (l : list Note) :
  handle GetSession b = (Some u, b1) ->
  handle select_newest_first b1 = ({| data := Some l; error := None |}, b2) ->
  run handle (loadNotes snap) s b
  = {| ui :=
         idle
           ((if JS.truthy (editingId snap)
                && negb (existsb (id_is (editingId snap)) l)
             then closed else fun x => x)
              (apply_ui (SetNotes l) (apply_ui (SetLoading true) s)));
       backend := b2;
       trace := [Requested GetSession; Requested select_newest_first] |}.
Proof.
  intros H1 H2. unfold loadNotes. answer H1.
  fold select_newest_first. answer H2. cbn [data error bind do].
  destruct (JS.truthy (editingId snap)
            && negb (existsb (id_is (editingId snap)) l)); reflexivity.
Qed.

(** [loadNotes] when the query fails or carries no rows: the list stays. *)
Lemma loadNotes_failed (snap s : State) (b b1 b2 : B) (u : User) (r : Rows) :
  handle GetSession b = (Some u, b1) ->
  handle select_newest_first b1 = (r, b2) ->
  (error r <> None \/ data r = None) ->
  run handle (loadNotes snap) s b
  = {| ui := idle (apply_ui (SetLoading true) s); backend := b2;
       trace := [Requested GetSession; Requested select_newest_first] |}.
Proof.
  intros H1 H2 Hr. unfold loadNotes. answer H1.
  fold select_newest_first. answer H2.
  destruct r as [[l |] [e |]]; cbn in *; try reflexivity.
  destruct Hr; congruence.
Qed.

(** C10. With no edit target, [updateNote] does nothing at all: it is the
    function that returns at once, so it validates nothing, sends no
    request, shows no message and leaves every state cell, the busy flag
    included, as it was. *)
Theorem updateNote_without_target (snap s : State) (b : B) :
  JS.truthy (editingId snap) = false ->
  updateNote snap = Ret tt
  /\ run handle (updateNote snap) s b
     = {| ui := s; backend := b; trace := [] |}
  /\ advance OpUpdate (updateNote snap) s = (s, [], []).
Proof.
  intros H. unfold updateNote.
  destruct (editingId snap) as [[| c i] |]; cbn in H; try discriminate;
    repeat split; reflexivity.
Qed.

(** In create mode, submitting any draft while no session is active
    shows "Please sign in." and sends nothing but the session query; the
    state is left as it was, the busy flag cleared. *)
Theorem submit_create_without_session (snap s : State) (b b' : B) :
  JS.truthy (editingId snap) = false ->
  handle GetSession b = (None, b') ->
  run handle (submit snap) s b
  = {| ui := idle s; backend := b';
       trace := [Requested GetSession; Alerted please_sign_in_msg] |}
  /\ refused_without_write (run handle (submit snap) s b).
Proof.
  intros Hmode H. unfold submit. rewrite Hmode.
  assert (E : run handle (addNote snap) s b
              = {| ui := idle s; backend := b';
                   trace := [Requested GetSession; Alerted please_sign_in_msg] |}).
  { unfold addNote. answer H. destruct s; reflexivity. }
  rewrite E. split; [reflexivity |].
  split; cbn; [right; left; reflexivity | reflexivity].
Qed.

(** In edit mode no session is consulted: a valid draft goes out as an
    update request whatever the session. *)
Lemma updateNote_sends (snap s : State) (b : B) (c : N) (i : jsstring)
      (d : Draft) :
  editingId snap = Some (c :: i) ->
  validateNote (st_title snap) (st_content snap) = inr d ->
  exists rest,
    trace (run handle (updateNote snap) s b)
    = Requested (NotesUpdate (d_title d) (d_content d) (c :: i)) :: rest.
Proof.
  intros He Hv. unfold updateNote, validateNoteOrAlert. rewrite He, Hv.
  cbn [run bind do await].
  destruct (handle _ b) as [x b']. cbn. eexists. reflexivity.
Qed.

(** ** Loading *)

(** C5. With no session [loadNotes] empties the list and sends nothing
    after the session query.  With a session it asks for the rows ordered
    by [created_at] descending and the list becomes exactly the rows
    received, whatever it held before; rows that arrive newest first are
    therefore displayed newest first. *)
Theorem loadNotes_replaces (snap s : State) (b : B) :
  (forall b',
      handle GetSession b = (None, b') ->
      notes (ui (run handle (loadNotes snap) s b)) = []
      /\ trace (run handle (loadNotes snap) s b) = [Requested GetSession])
  /\
  (forall u b1 l b2,
      handle GetSession b = (Some u, b1) ->
      handle (NotesSelect (JS.lit "id,title,content,created_at")
                          (JS.lit "created_at") false) b1
      = ({| data := Some l; error := None |}, b2) ->
      notes (ui (run handle (loadNotes snap) s b)) = l
      /\ trace (run handle (loadNotes snap) s b)
         = [Requested GetSession;
            Requested (NotesSelect (JS.lit "id,title,content,created_at")
                                   (JS.lit "created_at") false)]
      /\ forall le, newest_first le l ->
                    newest_first le (notes (ui (run handle (loadNotes snap) s b)))).
Proof.
  split.
  - intros b' H. rewrite loadNotes_signed_out with (1 := H).
    split; reflexivity.
  - intros u b1 l b2 H1 H2.
    rewrite loadNotes_fetched with (1 := H1) (2 := H2).
    assert (E : notes (idle
                  ((if JS.truthy (editingId snap)
                       && negb (existsb (id_is (editingId snap)) l)
                    then closed else fun x => x)
                     (apply_ui (SetNotes l) (apply_ui (SetLoading true) s))))
                = l).
    { destruct (JS.truthy (editingId snap)
                && negb (existsb (id_is (editingId snap)) l)); reflexivity. }
    cbn [ui trace]. rewrite E. repeat split. auto.
Qed.

(** C9. If the backend answers the two reads without changing, a second
    [loadNotes] leaves the list the first one produced. *)
Theorem loadNotes_twice (snap1 snap2 s : State) (b : B) :
  (forall X (e : backendE X), is_read e = true -> snd (handle e b) = b) ->
  backend (run handle (loadNotes snap1) s b) = b
  /\ notes (ui (run handle (loadNotes snap2)
                    (ui (run handle (loadNotes snap1) s b))
                    (backend (run handle (loadNotes snap1) s b))))
     = notes (ui (run handle (loadNotes snap1) s b)).
Proof.
  intros Hpure.
  pose proof (Hpure _ GetSession eq_refl) as Hs.
  pose proof (Hpure _ select_newest_first eq_refl) as Hq.
  destruct (handle GetSession b) as [sess b1] eqn:E1. cbn in Hs. subst b1.
  destruct sess as [u |].
  - destruct (handle select_newest_first b) as [r b2] eqn:E2.
    cbn in Hq. subst b2.
    destruct r as [[l |] [e |]].
    + rewrite loadNotes_failed with (1 := E1) (2 := E2) by (left; discriminate).
      cbn [backend ui]. split; [reflexivity |].
      rewrite loadNotes_failed with (1 := E1) (2 := E2) by (left; discriminate).
      reflexivity.
    + rewrite loadNotes_fetched with (1 := E1) (2 := E2). cbn [backend ui].
      split; [reflexivity |].
      rewrite loadNotes_fetched with (1 := E1) (2 := E2). cbn [ui].
      destruct (JS.truthy (editingId snap1)
                && negb (existsb (id_is (editingId snap1)) l));
        destruct (JS.truthy (editingId snap2)
                  && negb (existsb (id_is (editingId snap2)) l));
        reflexivity.
    + rewrite loadNotes_failed with (1 := E1) (2 := E2) by (left; discriminate).
      cbn [backend ui]. split; [reflexivity |].
      rewrite loadNotes_failed with (1 := E1) (2 := E2) by (left; discriminate).
      reflexivity.
    + rewrite loadNotes_failed with (1 := E1) (2 := E2) by (right; reflexivity).
      cbn [backend ui]. split; [reflexivity |].
      rewrite loadNotes_failed with (1 := E1) (2 := E2) by (right; reflexivity).
      reflexivity.
  - rewrite loadNotes_signed_out with (1 := E1). cbn [backend ui].
    split; [reflexivity |].
    rewrite loadNotes_signed_out with (1 := E1). reflexivity.
Qed.

(** A load whose rows lack the edit target its render saw closes the
    edit, and says nothing. *)
Lemma loadNotes_closes (snap s : State) (b b1 b2 : B) (u : User)
      (l : list Note) :
  JS.truthy (editingId snap) = true ->
  handle GetSession b = (Some u, b1) ->
  handle select_newest_first b1 = ({| data := Some l; error := None |}, b2) ->
  existsb (id_is (editingId snap)) l = false ->
  run handle (loadNotes snap) s b
  = {| ui := idle (closed (apply_ui (SetNotes l) (apply_ui (SetLoading true) s)));
       backend := b2;
       trace := [Requested GetSession; Requested select_newest_first] |}.
Proof.
  intros Ht H1 H2 Hl. rewrite loadNotes_fetched with (1 := H1) (2 := H2).
  now rewrite Ht, Hl.
Qed.

Lemma deleteNote_done (s0 s : State) (b b0 : B) (i : jsstring) :
  handle (NotesDelete i) b = (None, b0) ->
  run handle (deleteNote s0 i) s b
  = after [Requested (NotesDelete i)]
      (run handle (loadNotes s0) (idle (apply_ui (SetLoading true) s)) b0).
Proof.
  intros H. unfold deleteNote. answer H. reflexivity.
Qed.

(** In a state with an edit target, a load started from that state which
    succeeds with rows none of which has the target's identifier leaves
    no edit target and an empty draft, and shows no message.  So does
    deleting the note being edited, once the reload that follows returns
    rows without it. *)
Theorem missing_target_discarded (s : State) (b : B) :
  JS.truthy (editingId s) = true ->
  (forall u b1 l b2,
      handle GetSession b = (Some u, b1) ->
      handle select_newest_first b1
      = ({| data := Some l; error := None |}, b2) ->
      existsb (id_is (editingId s)) l = false ->
      editingId (ui (run handle (loadNotes s) s b)) = None
      /\ st_title (ui (run handle (loadNotes s) s b)) = []
      /\ st_content (ui (run handle (loadNotes s) s b)) = []
      /\ existsb is_alert (trace (run handle (loadNotes s) s b)) = false)
  /\
  (forall i b0 u b1 l b2,
      editingId s = Some i ->
      handle (NotesDelete i) b = (None, b0) ->
      handle GetSession b0 = (Some u, b1) ->
      handle select_newest_first b1
      = ({| data := Some l; error := None |}, b2) ->
      existsb (id_is (Some i)) l = false ->
      editingId (ui (run handle (deleteNote s i) s b)) = None
      /\ st_title (ui (run handle (deleteNote s i) s b)) = []
      /\ st_content (ui (run handle (deleteNote s i) s b)) = []
      /\ existsb is_alert (trace (run handle (deleteNote s i) s b)) = false).
Proof.
  intros Ht. split.
  - intros u b1 l b2 H1 H2 Hl.
    rewrite loadNotes_closes with (1 := Ht) (2 := H1) (3 := H2) (4 := Hl). repeat split.
  - intros i b0 u b1 l b2 He Hd H1 H2 Hl.
    rewrite deleteNote_done with (1 := Hd).
    rewrite <- He in Hl.
    rewrite loadNotes_closes with (1 := Ht) (2 := H1) (3 := H2) (4 := Hl). repeat split.
Qed.

(** ** Create, update, delete *)

(** C8. When the insert, the update or the delete is answered with an
    error, the error's message is alerted as received, the request is
    not repeated, nothing is reloaded and the state is the one before,
    busy flag cleared (so the very same state when the operation started
    from an enabled control).  When it is answered without error, the
    single request has been sent, the draft, and for an update the edit
    target, are reset and the list is reloaded. *)
Theorem write_outcomes (snap s : State) (b : B) :
  (forall u b1 d r b2,
      handle GetSession b = (Some u, b1) ->
      validateNote (st_title snap) (st_content snap) = inr d ->
      handle (NotesInsert (user_id u) (d_title d) (d_content d)) b1 = (r, b2) ->
      match r with
      | Some e =>
          run handle (addNote snap) s b
          = {| ui := idle s; backend := b2;
               trace :=
                 [Requested GetSession;
                  Requested (NotesInsert (user_id u) (d_title d) (d_content d));
                  Alerted (err_message e)] |}
      | None =>
          run handle (addNote snap) s b
          = after [Requested GetSession;
                   Requested (NotesInsert (user_id u) (d_title d) (d_content d))]
              (run handle (loadNotes snap) (emptied (idle s)) b2)
      end)
  /\
  (forall c i d r b1,
      editingId snap = Some (c :: i) ->
      validateNote (st_title snap) (st_content snap) = inr d ->
      handle (NotesUpdate (d_title d) (d_content d) (c :: i)) b = (r, b1) ->
      match r with
      | Some e =>
          run handle (updateNote snap) s b
          = {| ui := idle s; backend := b1;
               trace :=
                 [Requested (NotesUpdate (d_title d) (d_content d) (c :: i));
                  Alerted (err_message e)] |}
      | None =>
          run handle (updateNote snap) s b
          = then_run handle
              (after [Requested (NotesUpdate (d_title d) (d_content d) (c :: i))]
                 (run handle (loadNotes snap)
                    (closed (apply_ui (SetLoading true) s)) b1))
              (do (SetLoading false))
      end)
  /\
  (forall i r b1,
      handle (NotesDelete i) b = (r, b1) ->
      match r with
      | Some e =>
          run handle (deleteNote snap i) s b
          = {| ui := idle s; backend := b1;
               trace := [Requested (NotesDelete i); Alerted (err_message e)] |}
      | None =>
          run handle (deleteNote snap i) s b
          = after [Requested (NotesDelete i)]
              (run handle (loadNotes snap) (idle s) b1)
      end)
  /\ (loading s = false -> idle s = s).
Proof.
  repeat split.
  - intros u b1 d [e |] b2 H1 Hv H2; unfold addNote, validateNoteOrAlert;
      answer H1; rewrite Hv; answer H2.
    + destruct s; reflexivity.
    + cbn [run bind do]. destruct s; reflexivity.
  - intros c i d [e |] b1 He Hv H; unfold updateNote, validateNoteOrAlert;
      rewrite He, Hv; answer H.
    + destruct s; reflexivity.
    + cbn [run bind do]. rewrite run_seq.
      unfold then_run, after, closed, emptied. destruct s; reflexivity.
  - intros i [e |] b1 H; unfold deleteNote; answer H.
    + destruct s; reflexivity.
    + cbn [run bind do]. destruct s; reflexivity.
  - apply idle_when_idle.
Qed.

End Alone.

(** ** Runs on the reference backend *)

Import Fixture.

Lemma serve_reads_pure (sv : Server.t) (X : Type) (e : backendE X) :
  is_read e = true -> snd (Server.serve e sv) = sv.
Proof.
  destruct e; cbn [is_read]; try discriminate; intros _;
    cbn [Server.serve]; [reflexivity |].
  destruct (Server.outage sv); reflexivity.
Qed.

Lemma updateNote_without_target_witness :
  updateNote drafting = Ret tt
  /\ run Server.serve (updateNote drafting) drafting (server (Some alice) None)
     = {| ui := drafting; backend := server (Some alice) None; trace := [] |}
  /\ advance OpUpdate (updateNote drafting) drafting = (drafting, [], []).
Proof.
  apply (updateNote_without_target Server.serve drafting drafting
           (server (Some alice) None)).
  reflexivity.
Defined.

Lemma submit_create_without_session_witness :
  run Server.serve (submit drafting) drafting (server None None)
  = {| ui := idle drafting; backend := server None None;
       trace := [Requested GetSession; Alerted please_sign_in_msg] |}
  /\ refused_without_write
       (run Server.serve (submit drafting) drafting (server None None)).
Proof.
  apply (submit_create_without_session Server.serve drafting drafting
           (server None None)); reflexivity.
Defined.

(** In edit mode the same button is not so guarded: with no session,
    submitting the edit of [n1] shows no "Please sign in." and sends the
    update. *)
Lemma submit_edit_without_session_counterexample :
  Server.session (server None None) = None
  /\ JS.truthy (editingId editing_n1) = true
  /\ ~ refused_without_write
         (run Server.serve (submit editing_n1) editing_n1 (server None None)).
Proof.
  split; [reflexivity |]. split; [reflexivity |].
  intros [_ H]. vm_compute in H. discriminate H.
Qed.

Lemma loadNotes_replaces_witness :
  (notes (ui (run Server.serve (loadNotes drafting) drafting (server None None)))
   = []
   /\ trace (run Server.serve (loadNotes drafting) drafting (server None None))
      = [Requested GetSession])
  /\ notes (ui (run Server.serve (loadNotes drafting) initial
                    (server (Some alice) None)))
     = [n2; n1]
  /\ newest_first (fun a b => Server.leb a b = true)
       (notes (ui (run Server.serve (loadNotes drafting) initial
                       (server (Some alice) None)))).
Proof.
  split.
  - apply (proj1 (loadNotes_replaces Server.serve drafting drafting
                    (server None None)) (server None None)).
    reflexivity.
  - destruct (proj2 (loadNotes_replaces Server.serve drafting initial
                       (server (Some alice) None))
                alice (server (Some alice) None) [n2; n1]
                (server (Some alice) None) eq_refl eq_refl)
      as (Hl & _ & Hs).
    split; [exact Hl |].
    apply Hs. repeat constructor.
Defined.

Lemma loadNotes_twice_witness :
  backend (run Server.serve (loadNotes initial) initial
               (server (Some alice) None))
  = server (Some alice) None
  /\ notes (ui (run Server.serve (loadNotes drafting)
                    (ui (run Server.serve (loadNotes initial) initial
                             (server (Some alice) None)))
                    (backend (run Server.serve (loadNotes initial) initial
                                  (server (Some alice) None)))))
     = notes (ui (run Server.serve (loadNotes initial) initial
                      (server (Some alice) None))).
Proof.
  apply (loadNotes_twice Server.serve initial drafting initial
           (b := server (Some alice) None)).
  intros X e. apply serve_reads_pure.
Defined.

Lemma missing_target_discarded_witness :
  editingId (ui (run Server.serve (loadNotes editing_n1) editing_n1 n1_deleted))
  = None
  /\ st_title (ui (run Server.serve (deleteNote editing_n1 (id n1)) editing_n1
                       (server (Some alice) None)))
     = [].
Proof.
  split.
  - destruct (missing_target_discarded Server.serve editing_n1 n1_deleted
                eq_refl) as [Hload _].
    apply (Hload alice n1_deleted [n2] n1_deleted); reflexivity.
  - destruct (missing_target_discarded Server.serve editing_n1
                (server (Some alice) None) eq_refl) as [_ Hdel].
    apply (Hdel (id n1) n1_deleted alice n1_deleted [n2] n1_deleted);
      reflexivity.
Defined.

Lemma write_outcomes_witness :
  run Server.serve (addNote drafting) drafting
      (server (Some alice) (Some timeout))
  = {| ui := drafting; backend := server (Some alice) (Some timeout);
       trace :=
         [Requested GetSession;
          Requested (NotesInsert (user_id alice) (JS.lit "Todo")
                                 (JS.lit "call home"));
          Alerted (JS.lit "Failed to fetch")] |}
  /\ run Server.serve (updateNote editing_n1) editing_n1
         (server (Some alice) (Some timeout))
     = {| ui := editing_n1; backend := server (Some alice) (Some timeout);
          trace :=
            [Requested (NotesUpdate (title n1) (content n1) (id n1));
             Alerted (JS.lit "Failed to fetch")] |}
  /\ run Server.serve (deleteNote drafting (id n2)) drafting
         (server (Some alice) (Some timeout))
     = {| ui := drafting; backend := server (Some alice) (Some timeout);
          trace :=
            [Requested (NotesDelete (id n2));
             Alerted (JS.lit "Failed to fetch")] |}.
Proof.
  destruct (write_outcomes Server.serve drafting drafting
              (server (Some alice) (Some timeout))) as (Hc & _ & Hd & _).
  destruct (write_outcomes Server.serve editing_n1 editing_n1
              (server (Some alice) (Some timeout))) as (_ & Hu & _ & _).
  split; [| split].
  - exact (Hc alice _ {| d_title := JS.lit "Todo";
                         d_content := JS.lit "call home" |}
              (Some timeout) _ eq_refl eq_refl eq_refl).
  - exact (Hu 110%N (JS.lit "1")
              {| d_title := title n1; d_content := content n1 |}
              (Some timeout) _ eq_refl eq_refl eq_refl).
  - exact (Hd (id n2) (Some timeout) _ eq_refl).
Defined.

(** The state of the counterexample arises on the page: Alice, editing
    [n1], signs out and clicks "Save changes" once the sign-out is
    answered but before the auth callback has hidden the form. *)
Lemma edit_submit_after_sign_out :
  option_map (fun c => (Server.session (c_backend c), parked c))
    (exec Server.serve (at_rest editing_n1 (server (Some alice) None))
          [Ui ClickSignOut; Respond 0; Ui ClickSubmit])
  = Some (None,
          [(OpUpdate,
            Requested (NotesUpdate (title n1) (content n1) (id n1)))]).
Proof. reflexivity. Qed.

(** C2 at its failing input: no session is active and Alice submits her
    edit of [n1].  [updateNote] makes no session query, unlike [addNote]
    behind the same button: the update request is sent, nothing is
    alerted, and since the backend reports no error the edit target and
    the draft are cleared and the reload empties the list. *)
Theorem edit_submit_skips_session_check :
  Server.session (server None None) = None
  /\ run Server.serve (submit editing_n1) editing_n1 (server None None)
     = {| ui :=
            {| email := JS.lit "alice@example.com"; password := JS.lit "pw-a";
               editingId := None; userEmail := user_email alice;
               notes := []; st_title := []; st_content := [];
               loading := false |};
          backend := server None None;
          trace :=
            [Requested (NotesUpdate (title n1) (content n1) (id n1));
             Requested GetSession] |}.
Proof. split; reflexivity. Qed.

(** ** The busy flag *)

Ltac busy :=
  cbn;
  repeat first
    [ exact I
    | reflexivity
    | split
    | intro
    | match goal with
      | |- context [match ?x with _ => _ end] => destruct x; cbn
      end ].

Lemma loadNotes_busy (snap s : State) : busy_at_awaits (loadNotes snap) s.
Proof. unfold loadNotes. busy. Qed.

(** Five of the six mutating functions set the flag before each request
    they await, the reload they end with included. *)
Lemma mutations_busy (snap s : State) (i : jsstring) :
  busy_at_awaits (signUp snap) s
  /\ busy_at_awaits (signIn snap) s
  /\ busy_at_awaits (addNote snap) s
  /\ busy_at_awaits (deleteNote snap i) s
  /\ busy_at_awaits (updateNote snap) s.
Proof.
  unfold signUp, signIn, addNote, deleteNote, updateNote, validateNoteOrAlert,
    loadNotes.
  repeat split; busy.
Qed.

(** [signOut] awaits its request with the flag as it found it. *)
Lemma signOut_not_busy (s : State) :
  loading s = false -> ~ busy_at_awaits signOut s.
Proof. intros H [H' _]. congruence. Qed.

(** While the flag is set, every control that starts a mutating operation
    is disabled. *)
Lemma busy_disables (s : State) (a : Action) :
  loading s = true ->
  mutating (fst (handler s a)) = true ->
  enabled s a = false.
Proof.
  intros H. destruct a; cbn; rewrite ?H, ?andb_false_r;
    try reflexivity; try discriminate.
Qed.

(** C7 at its failing input: Alice clicks "Sign out" and, before the
    answer arrives, "Delete" on a note.  After the first click the
    sign-out request is outstanding with the busy flag clear and the
    delete control enabled; after the second, two mutating operations are
    outstanding together. *)
Theorem sign_out_overlaps :
  option_map
    (fun c => (parked c, loading (c_ui c), enabled (c_ui c) (ClickDelete n2)))
    (exec Server.serve (at_rest drafting (server (Some alice) None))
          [Ui ClickSignOut])
  = Some ([(OpSignOut, Requested AuthSignOut)], false, true)
  /\ option_map (fun c => parked c)
       (exec Server.serve (at_rest drafting (server (Some alice) None))
             [Ui ClickSignOut; Ui (ClickDelete n2)])
     = Some [(OpSignOut, Requested AuthSignOut);
             (OpDelete, Requested (NotesDelete (id n2)))]
  /\ forallb (fun t => mutating (fst t))
       [(OpSignOut, Requested AuthSignOut);
        (OpDelete, Requested (NotesDelete (id n2)))]
     = true.
Proof. repeat split. Qed.

(** ** Signing out *)

(** Without a session [loadNotes] empties the list and leaves the edit
    target and the draft as they were, whichever render it belongs to. *)
Lemma loadNotes_signed_out_keeps_edit (B : Type)
      (handle : forall X : Type, backendE X -> B -> X * B)
      (snap s : State) (b b' : B) :
  handle _ GetSession b = (None, b') ->
  notes (ui (run handle (loadNotes snap) s b)) = []
  /\ editingId (ui (run handle (loadNotes snap) s b)) = editingId s
  /\ st_title (ui (run handle (loadNotes snap) s b)) = st_title s
  /\ st_content (ui (run handle (loadNotes snap) s b)) = st_content s.
Proof.
  intros H. rewrite loadNotes_signed_out with (1 := H). repeat split.
Qed.

(** C1 at its failing input: Alice, editing [n1], signs out; the request
    is answered, the auth callback runs [refreshSession] and [loadNotes]
    to their ends.  The list is empty and the session gone, but the edit
    target and the draft are still those of [n1]. *)
Theorem sign_out_keeps_edit_target :
  option_map (fun c => (c_ui c, parked c))
    (exec Server.serve (at_rest editing_n1 (server (Some alice) None))
          [Ui ClickSignOut; Respond 0; AuthEvent; Respond 0; Respond 0])
  = Some ({| email := JS.lit "alice@example.com"; password := JS.lit "pw-a";
             editingId := Some (id n1); userEmail := None; notes := [];
             st_title := title n1; st_content := content n1;
             loading := false |},
          []).
Proof. reflexivity. Qed.

(** What follows when Bob then signs in on the same page: his notes are
    listed, and the form is open on Alice's note. *)
Lemma stale_edit_survives_user_switch :
  option_map (fun c => (c_ui c, parked c))
    (exec Server.serve (at_rest editing_n1 (server (Some alice) None))
          [Ui ClickSignOut; Respond 0; AuthEvent; Respond 0; Respond 0;
           Ui (TypeEmail (JS.lit "bob@example.com"));
           Ui (TypePassword (JS.lit "pw-b"));
           Ui ClickSignIn; Respond 0; AuthEvent;
           Respond 0; Respond 0; Respond 0])
  = Some ({| email := JS.lit "bob@example.com"; password := JS.lit "pw-b";
             editingId := Some (id n1); userEmail := user_email bob;
             notes := [n3];
             st_title := title n1; st_content := content n1;
             loading := false |},
          []).
Proof. reflexivity. Qed.

(** A create that succeeds is listed by the reload that follows it. *)
Example create_then_listed :
  notes (ui (run Server.serve (addNote drafting) drafting
                 (server (Some alice) None)))
  = [{| id := JS.lit "n4"; title := JS.lit "Todo";
        content := JS.lit "call home";
        created_at := JS.lit "2024-01-03T08:00:00+00:00" |}; n2; n1].
Proof. reflexivity. Qed.

(** ** Loads started by the auth callback *)

(** [n1] was deleted from another client while Alice edits it.  The
    Refresh button closes the edit. *)
Lemma refresh_closes_missing_target :
  option_map (fun c => (editingId (c_ui c), notes (c_ui c), st_title (c_ui c)))
    (exec Server.serve (at_rest editing_n1 n1_deleted)
          [Ui ClickRefresh; Respond 0; Respond 0])
  = Some (None, [n2], []).
Proof. reflexivity. Qed.

(** C6 at its failing input: with [n1] deleted elsewhere and Alice still
    editing it, an auth-state event (a token refresh, say) makes the
    callback reload the list.  The load succeeds, the rows lack [n1], and
    the edit target and draft stay: the callback runs the first render's
    [loadNotes], which sees no edit target. *)
Theorem callback_keeps_missing_target :
  option_map (fun c => (editingId (c_ui c), notes (c_ui c), st_title (c_ui c)))
    (exec Server.serve (at_rest editing_n1 n1_deleted)
          [AuthEvent; Respond 0; Respond 0; Respond 0])
  = Some (Some (id n1), [n2], title n1).
Proof. reflexivity. Qed.

(** ** Trimming *)

Lemma trimStart_clean (s : jsstring) : clean_start (JS.trimStart s) = true.
Proof.
  induction s as [| c s IH]; cbn; [reflexivity |].
  destruct (JS.is_space c) eqn:E; [assumption |].
  cbn. now rewrite E.
Qed.

Lemma trimStart_fixed (s : jsstring) :
  clean_start s = true -> JS.trimStart s = s.
Proof.
  destruct s as [| c s]; cbn; [reflexivity |].
  now destruct (JS.is_space c).
Qed.

Lemma trimStart_spaces (w s : jsstring) :
  all_space w = true -> JS.trimStart (w ++ s) = JS.trimStart s.
Proof.
  unfold all_space. induction w as [| c w IH]; cbn; [reflexivity |].
  intros H. apply andb_prop in H as [Hc Hw]. rewrite Hc. now apply IH.
Qed.

Lemma trimStart_all_space (w : jsstring) :
  all_space w = true -> JS.trimStart w = [].
Proof.
  intros H. rewrite <- (app_nil_r w). now rewrite trimStart_spaces.
Qed.

(** What [trimStart] removes is whitespace. *)
Lemma trimStart_split (s : jsstring) :
  exists w, all_space w = true /\ s = w ++ JS.trimStart s.
Proof.
  induction s as [| c s (w & Hw & E)]; cbn.
  - exists []. now split.
  - destruct (JS.is_space c) eqn:Hc.
    + exists (c :: w). split; [cbn; now rewrite Hc | cbn; now rewrite <- E].
    + exists []. now split.
Qed.

Lemma all_space_rev (w : jsstring) : all_space (rev w) = all_space w.
Proof.
  unfold all_space. induction w as [| c w IH]; cbn; [reflexivity |].
  rewrite forallb_app, IH. cbn. rewrite andb_true_r. apply andb_comm.
Qed.

Lemma trimEnd_split (s : jsstring) :
  exists w, all_space w = true /\ s = JS.trimEnd s ++ w.
Proof.
  destruct (trimStart_split (rev s)) as (w & Hw & E).
  exists (rev w). split; [now rewrite all_space_rev |].
  unfold JS.trimEnd. rewrite <- rev_app_distr, <- E. now rewrite rev_involutive.
Qed.

Lemma trimEnd_spaces (s w : jsstring) :
  all_space w = true -> JS.trimEnd (s ++ w) = JS.trimEnd s.
Proof.
  intros H. unfold JS.trimEnd. rewrite rev_app_distr, trimStart_spaces;
    [reflexivity | now rewrite all_space_rev].
Qed.

Lemma trimEnd_clean_start (s : jsstring) :
  clean_start s = true -> clean_start (JS.trimEnd s) = true.
Proof.
  intros H. destruct (trimEnd_split s) as (w & _ & E).
  destruct (JS.trimEnd s) as [| c t]; [reflexivity |].
  rewrite E in H. exact H.
Qed.

Lemma trim_clean (s : jsstring) : clean_edges (JS.trim s) = true.
Proof.
  unfold clean_edges, JS.trim. apply andb_true_intro. split.
  - apply trimEnd_clean_start, trimStart_clean.
  - unfold JS.trimEnd. rewrite rev_involutive. apply trimStart_clean.
Qed.

Lemma trim_fixed (s : jsstring) : clean_edges s = true -> JS.trim s = s.
Proof.
  unfold clean_edges, JS.trim, JS.trimEnd. intros H.
  apply andb_prop in H as [H1 H2].
  rewrite (trimStart_fixed _ H1), (trimStart_fixed _ H2).
  apply rev_involutive.
Qed.

Lemma trim_idempotent (s : jsstring) : JS.trim (JS.trim s) = JS.trim s.
Proof. apply trim_fixed, trim_clean. Qed.

Lemma trim_all_space (w : jsstring) : all_space w = true -> JS.trim w = [].
Proof.
  intros H. unfold JS.trim. now rewrite trimStart_all_space.
Qed.

Lemma trim_padding (w1 s w2 : jsstring) :
  all_space w1 = true -> all_space w2 = true ->
  JS.trim (w1 ++ s ++ w2) = JS.trim s.
Proof.
  intros H1 H2. unfold JS.trim. rewrite trimStart_spaces by assumption.
  destruct (trimStart_split s) as (w & Hw & E).
  destruct (JS.trimStart s) as [| c t] eqn:Et.
  - rewrite app_nil_r in E. subst w.
    rewrite trimStart_all_space; [reflexivity |].
    unfold all_space in *. rewrite forallb_app. now rewrite Hw, H2.
  - rewrite E at 1. rewrite <- app_assoc, trimStart_spaces by assumption.
    cbn [app JS.trimStart].
    assert (Hc : JS.is_space c = false).
    { pose proof (trimStart_clean s) as Hs. rewrite Et in Hs. cbn in Hs.
      now destruct (JS.is_space c). }
    rewrite Hc. change (c :: t ++ w2) with ((c :: t) ++ w2).
    now apply trimEnd_spaces.
Qed.

Lemma trim_length (s : jsstring) : (JS.len (JS.trim s) <= JS.len s)%N.
Proof.
  unfold JS.trim, JS.len.
  destruct (trimStart_split s) as (w1 & _ & E1).
  destruct (trimEnd_split (JS.trimStart s)) as (w2 & _ & E2).
  rewrite E1 at 2. rewrite E2 at 2. rewrite !length_app. lia.
Qed.

(** ** What validation returns *)

Lemma validateNote_accepts (t c : jsstring) (d : Draft) :
  validateNote t c = inr d ->
  d = {| d_title := JS.trim t; d_content := JS.trim c |}
  /\ (JS.len (JS.trim t) <= 80 /\ 1 <= JS.len (JS.trim c) <= 5000)%N.
Proof.
  rewrite validateNote_first_violated.
  destruct (first_violated t c) eqn:E; [discriminate |].
  intros [= <-]. split; [reflexivity |]. now apply first_violated_none.
Qed.

Lemma trimmed_well_formed (t c : jsstring) :
  (JS.len (JS.trim t) <= 80 /\ 1 <= JS.len (JS.trim c) <= 5000)%N ->
  well_formed (JS.trim t) (JS.trim c) = true.
Proof.
  intros (Ht & Hc1 & Hc2). unfold well_formed.
  rewrite !trim_clean, !andb_true_r.
  apply N.leb_le in Ht, Hc1, Hc2. now rewrite Ht, Hc1, Hc2.
Qed.

(** X1. A draft that validation returns is within the limits and has no
    whitespace at either edge of its title or of its content. *)
Theorem validateNote_well_formed (t c : jsstring) (d : Draft) :
  validateNote t c = inr d ->
  well_formed (d_title d) (d_content d) = true.
Proof.
  intros H. apply validateNote_accepts in H as [-> Hr].
  now apply trimmed_well_formed.
Qed.

Lemma validateNote_well_formed_witness :
  well_formed (JS.lit "Todo") (JS.lit "call home") = true.
Proof.
  apply (validateNote_well_formed (JS.lit " Todo ") (JS.lit "call home")
           (d := {| d_title := JS.lit "Todo"; d_content := JS.lit "call home" |})).
  reflexivity.
Defined.

(** X2. Validation is idempotent: validating the draft it returned
    returns that draft again. *)
Theorem validateNote_idempotent (t c : jsstring) (d : Draft) :
  validateNote t c = inr d ->
  validateNote (d_title d) (d_content d) = inr d.
Proof.
  intros H. apply validateNote_accepts in H as [-> Hr].
  cbn [d_title d_content]. rewrite validateNote_first_violated.
  assert (E : first_violated (JS.trim t) (JS.trim c) = None)
    by (apply first_violated_none; now rewrite !trim_idempotent).
  rewrite E. now rewrite !trim_idempotent.
Qed.

Lemma validateNote_idempotent_witness :
  validateNote (JS.lit "Todo") (JS.lit "call home")
  = inr {| d_title := JS.lit "Todo"; d_content := JS.lit "call home" |}.
Proof.
  apply (validateNote_idempotent (JS.lit " Todo ") (JS.lit "call home")
           (d := {| d_title := JS.lit "Todo"; d_content := JS.lit "call home" |})).
  reflexivity.
Defined.

(** X3. Whitespace around the title or around the content changes
    neither the verdict nor the draft returned. *)
Theorem validateNote_padding (w1 t w2 w3 c w4 : jsstring) :
  all_space w1 = true -> all_space w2 = true ->
  all_space w3 = true -> all_space w4 = true ->
  validateNote (w1 ++ t ++ w2) (w3 ++ c ++ w4) = validateNote t c.
Proof.
  intros H1 H2 H3 H4. rewrite !validateNote_first_violated.
  unfold first_violated, priority, satisfied.
  now rewrite !trim_padding by assumption.
Qed.

Lemma validateNote_padding_witness :
  validateNote (JS.lit "  " ++ JS.lit "Todo" ++ [9%N; 10%N])
               ([160%N] ++ JS.lit "call home" ++ [12288%N; 32%N])
  = validateNote (JS.lit "Todo") (JS.lit "call home").
Proof.
  apply (validateNote_padding (JS.lit "  ") (JS.lit "Todo") [9%N; 10%N]
           [160%N] (JS.lit "call home") [12288%N; 32%N]); reflexivity.
Defined.

(** X4. A content made of whitespace only is refused as empty however long
    it is, unless the title is already too long; a title made of
    whitespace only is accepted as the empty title. *)
Theorem blank_fields (t c : jsstring) :
  (all_space c = true ->
   validateNote t c
   = inl (if (80 <? JS.len (JS.trim t))%N
          then title_too_long_msg else content_empty_msg))
  /\ (all_space t = true ->
      (1 <= JS.len (JS.trim c) <= 5000)%N ->
      validateNote t c = inr {| d_title := []; d_content := JS.trim c |}).
Proof.
  split.
  - intros H. rewrite validateNote_first_violated.
    unfold first_violated, priority, satisfied. cbn [find].
    rewrite (trim_all_space _ H). cbn [JS.len length N.of_nat].
    rewrite <- N.ltb_antisym.
    destruct (80 <? JS.len (JS.trim t))%N; reflexivity.
  - intros H Hc. rewrite validateNote_first_violated.
    assert (E : first_violated t c = None).
    { apply first_violated_none. rewrite (trim_all_space _ H).
      split; [cbn; lia | assumption]. }
    rewrite E. now rewrite (trim_all_space _ H).
Qed.

Lemma blank_fields_witness :
  validateNote (JS.lit "Todo") (repeat 32%N (N.to_nat 6000))
  = inl content_empty_msg
  /\ validateNote (JS.lit "   ") (JS.lit "x")
     = inr {| d_title := []; d_content := JS.lit "x" |}.
Proof.
  split.
  - apply (proj1 (blank_fields (JS.lit "Todo") (repeat 32%N (N.to_nat 6000)))).
    vm_compute. reflexivity.
  - apply (proj2 (blank_fields (JS.lit "   ") (JS.lit "x")) eq_refl).
    vm_compute. split; discriminate.
Defined.

(** ** What the functions of the page write and send *)

Ltac answers :=
  repeat
    (cbn [run bind do await after ui trace backend app obs_of];
     match goal with
     | |- context [let '(_, _) := ?h in _] => destruct h as [? ?] eqn:?
     | |- context [match ?x with _ => _ end] => destruct x eqn:?
     end);
  cbn [run bind do await after ui trace backend app obs_of].

Section Page.

Variable B : Type.
Variable handle : forall X : Type, backendE X -> B -> X * B.

Lemma ui_after (pre : list Obs) (o : Outcome B) : ui (after pre o) = ui o.
Proof. reflexivity. Qed.

(** A property of the state kept by every write a function may perform
    is kept by the function. *)
Lemma run_invariant (P : State -> Prop) (allowed : uiE -> bool)
      (p : Prog unit) :
  (forall u s, allowed u = true -> P s -> P (apply_ui u s)) ->
  forall s b, writes_only allowed p -> P s -> P (ui (run handle p s b)).
Proof.
  intros Hkeep. induction p as [a | u k IH | X e k IH]; intros s b Hw Hs.
  - exact Hs.
  - cbn in Hw |- *. destruct Hw as [Hu Hk]. apply IH; [assumption |].
    now apply Hkeep.
  - cbn in Hw |- *. destruct (handle e b) as [x b']. cbn. now apply IH.
Qed.

Lemma page_functions_write (snap : State) (i : jsstring) :
  Forall (writes_only page_write)
    [loadNotes snap; signUp snap; signIn snap; signOut; addNote snap;
     deleteNote snap i; updateNote snap].
Proof.
  unfold loadNotes, signUp, signIn, signOut, addNote, deleteNote, updateNote,
    validateNoteOrAlert.
  repeat constructor; busy.
Qed.

Lemma loadNotes_resets (snap : State) : writes_only reset_write (loadNotes snap).
Proof. unfold loadNotes. busy. Qed.

(** X5. No function of the page other than [refreshSession] changes the
    typed e-mail, the typed password or the displayed identity, whatever
    the backend answers: signing in or out does not itself change who
    the page shows, and never clears the password. *)
Theorem credentials_kept (snap s : State) (i : jsstring) (b : B) :
  Forall
    (fun p =>
       email (ui (run handle p s b)) = email s
       /\ password (ui (run handle p s b)) = password s
       /\ userEmail (ui (run handle p s b)) = userEmail s)
    [loadNotes snap; signUp snap; signIn snap; signOut; addNote snap;
     deleteNote snap i; updateNote snap].
Proof.
  eapply Forall_impl; [| apply page_functions_write].
  intros p Hp.
  apply (run_invariant
           (fun s' => email s' = email s /\ password s' = password s
                      /\ userEmail s' = userEmail s)
           page_write); [| assumption | repeat split].
  intros u s' Hu H. destruct u; cbn in *; try discriminate; exact H.
Qed.

(** X6. Whatever the backend answers, [loadNotes], [signUp], [signIn],
    [addNote] and [deleteNote] end with the busy flag cleared, and
    [updateNote] ends with it cleared or has left the state untouched. *)
Theorem busy_flag_released (snap s : State) (i : jsstring) (b : B) :
  Forall (fun p => loading (ui (run handle p s b)) = false)
    [loadNotes snap; signUp snap; signIn snap; addNote snap;
     deleteNote snap i]
  /\ (loading (ui (run handle (updateNote snap) s b)) = false
      \/ ui (run handle (updateNote snap) s b) = s).
Proof.
  split.
  - unfold signUp, signIn, addNote, deleteNote, validateNoteOrAlert, loadNotes.
    repeat constructor; answers; reflexivity.
  - unfold updateNote, validateNoteOrAlert, loadNotes.
    answers; (left; reflexivity) || (right; reflexivity).
Qed.

(** X7. Whatever the state and the answers, a submission sends an insert
    or an update only with a draft that is within the limits and trimmed:
    nothing the schema refuses reaches the backend. *)
Theorem submit_sends_well_formed (snap s : State) (b : B) :
  forallb sound_write (trace (run handle (submit snap) s b)) = true.
Proof.
  unfold submit, addNote, updateNote, validateNoteOrAlert.
  destruct (validateNote (st_title snap) (st_content snap)) as [m | d] eqn:Hv.
  - unfold loadNotes. answers; reflexivity.
  - apply validateNote_accepts in Hv as [-> Hv].
    apply trimmed_well_formed in Hv.
    unfold loadNotes. answers; cbn [forallb sound_write d_title d_content];
      rewrite ?Hv; reflexivity.
Qed.

(** X8. A draft the schema refuses stops the submission.  [addNote] shows
    the schema's message after its session query and sends no insert;
    [updateNote] shows it and does nothing else: no request at all, and
    not even the busy flag is touched. *)
Theorem refused_draft_aborts (snap s : State) (b : B) (m : jsstring) :
  validateNote (st_title snap) (st_content snap) = inl m ->
  (forall u b1,
      handle GetSession b = (Some u, b1) ->
      run handle (addNote snap) s b
      = {| ui := idle s; backend := b1;
           trace := [Requested GetSession; Alerted m] |})
  /\ (JS.truthy (editingId snap) = true ->
      run handle (updateNote snap) s b
      = {| ui := s; backend := b; trace := [Alerted m] |}).
Proof.
  intros Hv. split.
  - intros u b1 H. unfold addNote, validateNoteOrAlert. answer H. rewrite Hv.
    cbn. destruct s; reflexivity.
  - intros Ht. unfold updateNote, validateNoteOrAlert.
    destruct (editingId snap) as [[| c i] |]; try discriminate.
    rewrite Hv. reflexivity.
Qed.

(** X9. A reload that fails is silent: when the query is answered with an
    error or without rows, the list, the edit target and the draft stay
    as they were, the flag is cleared and no message is shown. *)
Theorem failed_load_is_silent (snap s : State) (b b1 b2 : B) (u : User)
        (r : Rows) :
  handle GetSession b = (Some u, b1) ->
  handle select_newest_first b1 = (r, b2) ->
  (error r <> None \/ data r = None) ->
  notes (ui (run handle (loadNotes snap) s b)) = notes s
  /\ form (ui (run handle (loadNotes snap) s b)) = form s
  /\ loading (ui (run handle (loadNotes snap) s b)) = false
  /\ existsb is_alert (trace (run handle (loadNotes snap) s b)) = false.
Proof.
  intros H1 H2 Hr.
  rewrite loadNotes_failed with (1 := H1) (2 := H2) by assumption.
  repeat split.
Qed.

(** X10. [signUp] and [signIn] send the e-mail and password exactly as
    typed.  An error is alerted with the provider's message as received
    and nothing else changes; a sign-up without error alerts the
    confirmation text, a sign-in without error alerts nothing.  [signOut]
    discards the answer: an error on sign-out is never shown. *)
Theorem auth_outcomes (snap s : State) (b : B) :
  (forall r b1,
      handle (AuthSignUp (email snap) (password snap)) b = (r, b1) ->
      run handle (signUp snap) s b
      = {| ui := idle s; backend := b1;
           trace :=
             [Requested (AuthSignUp (email snap) (password snap));
              Alerted (match r with
                       | Some e => err_message e
                       | None => signed_up_msg
                       end)] |})
  /\ (forall r b1,
         handle (AuthSignIn (email snap) (password snap)) b = (r, b1) ->
         run handle (signIn snap) s b
         = {| ui := idle s; backend := b1;
              trace :=
                Requested (AuthSignIn (email snap) (password snap))
                :: match r with
                   | Some e => [Alerted (err_message e)]
                   | None => []
                   end |})
  /\ (forall r b1,
         handle AuthSignOut b = (r, b1) ->
         run handle signOut s b
         = {| ui := s; backend := b1; trace := [Requested AuthSignOut] |}).
Proof.
  repeat split.
  - intros [e |] b1 H; unfold signUp; answer H; destruct s; reflexivity.
  - intros [e |] b1 H; unfold signIn; answer H; destruct s; reflexivity.
  - intros r b1 H. unfold signOut. answer H. reflexivity.
Qed.

(** X11. A reload leaves the form alone unless the edited note is gone:
    with no edit target in the render that started it, or with rows that
    still hold the target, the edit target and the draft are unchanged. *)
Theorem load_keeps_form (snap s : State) (b : B) :
  (JS.truthy (editingId snap) = false ->
   form (ui (run handle (loadNotes snap) s b)) = form s)
  /\ (forall u b1 l b2,
         handle GetSession b = (Some u, b1) ->
         handle select_newest_first b1
         = ({| data := Some l; error := None |}, b2) ->
         existsb (id_is (editingId snap)) l = true ->
         form (ui (run handle (loadNotes snap) s b)) = form s
         /\ notes (ui (run handle (loadNotes snap) s b)) = l).
Proof.
  split.
  - intros Ht. unfold loadNotes. rewrite Ht. answers;
      try discriminate; reflexivity.
  - intros u b1 l b2 H1 H2 Hl.
    rewrite loadNotes_fetched with (1 := H1) (2 := H2).
    rewrite Hl, andb_false_r. split; reflexivity.
Qed.

(** X12. After a write that succeeded the form is reset whatever the
    reload then does: a successful create ends with an empty draft, a
    successful update with no edit target and an empty draft, even when
    the reload finds no session or fails. *)
Theorem form_reset_after_success (snap s : State) (b : B) :
  (forall u b1 d b2,
      handle GetSession b = (Some u, b1) ->
      validateNote (st_title snap) (st_content snap) = inr d ->
      handle (NotesInsert (user_id u) (d_title d) (d_content d)) b1
      = (None, b2) ->
      st_title (ui (run handle (addNote snap) s b)) = []
      /\ st_content (ui (run handle (addNote snap) s b)) = [])
  /\ (forall c i d b1,
         editingId snap = Some (c :: i) ->
         validateNote (st_title snap) (st_content snap) = inr d ->
         handle (NotesUpdate (d_title d) (d_content d) (c :: i)) b = (None, b1) ->
         form (ui (run handle (updateNote snap) s b)) = (None, [], [])).
Proof.
  split.
  - intros u b1 d b2 H1 Hv H2.
    unfold addNote, validateNoteOrAlert. answer H1. rewrite Hv. answer H2.
    cbn [run bind do after ui obs_of app].
    apply (run_invariant (fun s' => st_title s' = [] /\ st_content s' = [])
             reset_write); [| apply loadNotes_resets | split; reflexivity].
    intros [] s' Hu H; cbn in *; try discriminate; try exact H;
      repeat match goal with
             | v : option _ |- _ => destruct v
             | v : jsstring |- _ => destruct v
             end; try discriminate; cbn; tauto.
  - intros c i d b1 He Hv H.
    unfold updateNote, validateNoteOrAlert. rewrite He, Hv. answer H.
    cbn [run bind do after ui obs_of app]. rewrite run_seq.
    unfold then_run. cbn [run do after ui obs_of app].
    apply (run_invariant
             (fun s' => form (apply_ui (SetLoading false) s') = (None, [], []))
             reset_write); [| apply loadNotes_resets | reflexivity].
    intros [] s' Hu Hf; cbn in *; try discriminate; try exact Hf;
      repeat match goal with
             | v : option _ |- _ => destruct v
             | v : jsstring |- _ => destruct v
             end; try discriminate; unfold form in *; cbn in *; congruence.
Qed.

End Page.

(** ** Clicks and answers in the event loop *)

Lemma advance_busy (o : Op) (p : Prog unit) :
  forall s s' tr ts,
    busy_at_awaits p s -> advance o p s = (s', tr, ts) -> ts <> [] ->
    loading s' = true.
Proof.
  induction p as [a | u k IH | X e k IH]; intros s s' tr ts Hb Ha Hts; cbn in *.
  - injection Ha as <- <- <-. congruence.
  - destruct (advance o k (apply_ui u s)) as [[s1 tr1] ts1] eqn:E.
    injection Ha as <- <- <-. eapply IH; eassumption.
  - injection Ha as <- <- <-. apply Hb.
Qed.

Lemma handler_busy (s : State) (a : Action) :
  a <> ClickSignOut -> busy_at_awaits (snd (handler s a)) s.
Proof.
  intros Ha. destruct a; cbn [handler snd]; try congruence;
    unfold submit, signIn, signUp, addNote, deleteNote, updateNote,
      validateNoteOrAlert, loadNotes; busy.
Qed.

Section Events.

Variable B : Type.
Variable handle : forall X : Type, backendE X -> B -> X * B.

(** Any click other than "Sign out" that leaves a request outstanding
    leaves the busy flag set, and with it every control that starts a
    mutating operation disabled. *)
Theorem click_holds_flag (c c' : Config B) (a : Action) :
  a <> ClickSignOut ->
  step handle c (Ui a) = Some c' ->
  List.length (c_tasks c) < List.length (c_tasks c') ->
  loading (c_ui c') = true
  /\ forall a', mutating (fst (handler (c_ui c') a')) = true ->
                enabled (c_ui c') a' = false.
Proof.
  intros Ha Hstep Hlen.
  assert (Hl : loading (c_ui c') = true).
  { unfold step in Hstep. destruct (enabled (c_ui c) a); [| discriminate].
    pose proof (handler_busy (c_ui c) Ha) as Hb.
    destruct (handler (c_ui c) a) as [o p]. cbn [snd] in Hb.
    injection Hstep as <-. unfold spawn in *.
    destruct (advance o p (c_ui c)) as [[s' tr] ts] eqn:E.
    cbn in Hlen |- *. eapply advance_busy; [exact Hb | exact E |].
    intros ->. rewrite app_nil_r in Hlen. lia. }
  split; [exact Hl |].
  intros a'. now apply busy_disables.
Qed.

(** While the busy flag is set the only user actions the page accepts
    are keystrokes in its inputs: they park nothing, send nothing and
    leave the flag set. *)
Lemma busy_accepts_typing_only (c c' : Config B) (a : Action) :
  loading (c_ui c) = true ->
  step handle c (Ui a) = Some c' ->
  c_tasks c' = c_tasks c /\ c_log c' = c_log c
  /\ c_backend c' = c_backend c /\ loading (c_ui c') = true.
Proof.
  intros Hl Hstep. unfold step in Hstep.
  destruct a; cbn [enabled] in Hstep; rewrite ?Hl in Hstep;
    cbn [negb] in Hstep; rewrite ?andb_false_r in Hstep;
    try discriminate Hstep;
    match type of Hstep with
    | (if ?g then _ else _) = _ => destruct g; [| discriminate Hstep]
    end;
    injection Hstep as <-; unfold spawn; cbn;
    rewrite !app_nil_r; repeat split; assumption.
Qed.

Lemma busy_blocks_users (acts : list Action) :
  forall c c',
    loading (c_ui c) = true ->
    exec handle c (map Ui acts) = Some c' ->
    c_tasks c' = c_tasks c /\ c_log c' = c_log c
    /\ c_backend c' = c_backend c /\ loading (c_ui c') = true.
Proof.
  induction acts as [| a acts IH]; intros c c' Hl Hex; cbn [map exec] in Hex.
  - injection Hex as <-. repeat split; assumption.
  - destruct (step handle c (Ui a)) as [c1 |] eqn:E; [| discriminate Hex].
    destruct (@busy_accepts_typing_only c c1 a Hl E) as (Ht & Hg & Hb & Hl1).
    destruct (IH _ _ Hl1 Hex) as (Ht' & Hg' & Hb' & Hl').
    repeat split; congruence.
Qed.

(** X13. After any click other than "Sign out" that leaves a request
    outstanding, nothing the user does starts another operation until a
    response or an auth event is processed: whatever sequence of user
    actions the page accepts from there, the parked requests, the log and
    the backend are those left by the click, and every click that would
    start a mutating operation is refused. *)
Theorem outstanding_click_blocks_users (c c1 c2 : Config B) (a : Action)
        (acts : list Action) :
  a <> ClickSignOut ->
  step handle c (Ui a) = Some c1 ->
  List.length (c_tasks c) < List.length (c_tasks c1) ->
  exec handle c1 (map Ui acts) = Some c2 ->
  c_tasks c2 = c_tasks c1 /\ c_log c2 = c_log c1
  /\ c_backend c2 = c_backend c1
  /\ forall a', mutating (fst (handler (c_ui c2) a')) = true ->
                step handle c2 (Ui a') = None.
Proof.
  intros Ha Hstep Hlen Hex.
  destruct (@click_holds_flag c c1 a Ha Hstep Hlen) as [Hl _].
  destruct (@busy_blocks_users acts c1 c2 Hl Hex) as (Ht & Hg & Hb & Hl2).
  repeat split; try assumption.
  intros a' Hm. unfold step.
  now rewrite (@busy_disables (c_ui c2) a' Hl2 Hm).
Qed.

(** X14. The two calls the auth callback (and the mount effect) starts
    together, [refreshSession] and [loadNotes], may be answered in any
    order: as long as the backend answers the reads without changing,
    every schedule that lets both finish ends in the state reached by
    running one after the other. *)
Theorem callback_order_irrelevant (s0 : State) (b : B) (log : list Obs)
        (inputs : list Input) (c : Config B) :
  (forall X (e : backendE X), is_read e = true -> snd (handle e b) = b) ->
  forallb is_respond inputs = true ->
  exec handle
    {| c_ui := s0; c_backend := b; c_tasks := []; c_log := log |}
    (AuthEvent :: inputs)
  = Some c ->
  c_tasks c = [] ->
  c_ui c = ui (run handle (refreshSession ;; loadNotes initial) s0 b).
Proof.
  intros Hpure.
  pose proof (Hpure _ GetSession eq_refl) as Hs.
  pose proof (Hpure _ select_newest_first eq_refl) as Hq.
  destruct (handle GetSession b) as [sess b1] eqn:E1. cbn in Hs. subst b1.
  destruct (handle select_newest_first b) as [r b2] eqn:E2. cbn in Hq. subst b2.
  unfold select_newest_first in E2.
  unfold refreshSession, loadNotes.
  cbn [run bind do await after ui]. rewrite E1.
  cbn [run bind do await after ui]. rewrite E1.
  cbn [exec step].
  destruct sess as [u |]; [destruct r as [[l |] [e |]] |];
    cbn [run bind do await after ui data error]; rewrite ?E2;
    cbn [run bind do await after ui data error];
    cbn in E2;
    intros Hr Hex Ht;
    do 4 (try (destruct inputs as [| [a | n |] inputs];
           [ injection Hex as <-; cbn in Ht; try discriminate Ht
           | discriminate Hr
           | cbn in Hr; destruct n as [| [| n]];
             cbn in Hex; rewrite ?E1, ?E2 in Hex; cbn in Hex;
             try discriminate Hex; try (destruct n; discriminate Hex)
           | discriminate Hr ])).
  all: reflexivity.
Qed.

(** X15. Clicking "Edit" on a listed note and then "Save changes" sends
    one update for that note's identifier, carrying the note's title and
    content trimmed, and leaves the page busy. *)
Theorem edit_then_save (c : Config B) (n : Note) (d : Draft) :
  enabled (c_ui c) (ClickEdit n) = true ->
  JS.truthy (userEmail (c_ui c)) = true ->
  id n <> [] ->
  validateNote (title n) (content n) = inr d ->
  exists c',
    exec handle c [Ui (ClickEdit n); Ui ClickSubmit] = Some c'
    /\ parked c'
       = parked c
         ++ [(OpUpdate,
              Requested (NotesUpdate (JS.trim (title n)) (JS.trim (content n))
                                     (id n)))]
    /\ form (c_ui c') = (Some (id n), title n, content n)
    /\ loading (c_ui c') = true.
Proof.
  intros He Hu Hid Hv.
  pose proof (validateNote_accepts _ _ Hv) as [-> _].
  cbn [exec step]. rewrite He.
  cbn in He. apply andb_prop in He as [_ Hl].
  apply negb_true_iff in Hl.
  cbn. rewrite Hu, Hl. cbn.
  unfold submit, updateNote, validateNoteOrAlert. cbn.
  destruct (id n) as [| x i] eqn:Ei; [congruence |].
  cbn. rewrite Hv. cbn.
  eexists. split; [reflexivity |].
  unfold parked, form. cbn. rewrite ?map_app, ?app_nil_r.
  repeat split; reflexivity.
Qed.

(** X16. Clicking "Edit" on a listed note and then "Cancel" sends
    nothing and ends in create mode with an empty draft: what had been
    typed before the edit is not restored. *)
Theorem edit_then_cancel (c : Config B) (n : Note) :
  enabled (c_ui c) (ClickEdit n) = true ->
  JS.truthy (userEmail (c_ui c)) = true ->
  id n <> [] ->
  exists c',
    exec handle c [Ui (ClickEdit n); Ui ClickCancel] = Some c'
    /\ c_ui c' = closed (c_ui c)
    /\ c_tasks c' = c_tasks c
    /\ c_log c' = c_log c
    /\ c_backend c' = c_backend c.
Proof.
  intros He Hu Hid.
  cbn [exec step]. rewrite He.
  cbn in He. apply andb_prop in He as [_ Hl].
  apply negb_true_iff in Hl.
  cbn. rewrite Hu, Hl. cbn.
  destruct (id n) as [| x i] eqn:Ei; [congruence |].
  cbn. eexists. split; [reflexivity |].
  cbn. rewrite !app_nil_r. repeat split.
Qed.

End Events.

(** ** The logger *)

Lemma lookup_assign (k k' : jsstring) (v : Log.value) (o : Log.object) :
  Log.lookup k (Log.assign k' v o)
  = if JS.eqb k' k then Some v else Log.lookup k o.
Proof.
  induction o as [| [k0 v0] o IH]; cbn.
  - reflexivity.
  - destruct (JS.eqb k0 k') eqn:E0; cbn.
    + apply JS_eqb_eq in E0. subst k0.
      destruct (JS.eqb k' k); reflexivity.
    + rewrite IH. destruct (JS.eqb k0 k) eqn:E1; [| reflexivity].
      destruct (JS.eqb k' k) eqn:E2; [| reflexivity].
      apply JS_eqb_eq in E1, E2. subst k0 k'.
      assert (R : JS.eqb k k = true) by now apply JS_eqb_eq.
      congruence.
Qed.

Lemma lookup_app (k : jsstring) (o1 o2 : Log.object) :
  Log.lookup k (o1 ++ o2)
  = match Log.lookup k o1 with
    | Some v => Some v
    | None => Log.lookup k o2
    end.
Proof.
  induction o1 as [| [k0 v0] o1 IH]; cbn; [reflexivity |].
  now destruct (JS.eqb k0 k).
Qed.

Lemma lookup_spread (k : jsstring) (src dst : Log.object) :
  Log.lookup k (Log.spread src dst)
  = match Log.last_of k src with
    | Some v => Some v
    | None => Log.lookup k dst
    end.
Proof.
  unfold Log.spread, Log.last_of. revert dst.
  induction src as [| [k0 v0] src IH]; intros dst; cbn; [reflexivity |].
  rewrite IH, lookup_app, lookup_assign. cbn.
  destruct (Log.lookup k (rev src)); [reflexivity |].
  now destruct (JS.eqb k0 k).
Qed.

(** X17. What [logError] hands to the console: the label is the context
    prefixed with "[QuickNotes] "; in the payload [ts] is always the
    instant of the call, every other key of [extra] takes precedence over
    what is read off the caught value, and the remaining keys are [name],
    [message] and [stack] of an [Error], or [value] for anything else. *)
Theorem logError_payload (now context : jsstring) (error : Log.thrown)
        (extra : option Log.object) (k : jsstring) :
  fst (Log.logError now context error extra)
  = JS.lit "[QuickNotes] " ++ context
  /\ Log.lookup k (snd (Log.logError now context error extra))
     = if JS.eqb (JS.lit "ts") k then Some (Log.Str now)
       else match Log.last_of k (match extra with Some x => x | None => [] end)
            with
            | Some v => Some v
            | None => Log.described error k
            end.
Proof.
  split; [reflexivity |].
  unfold Log.logError. cbn [snd].
  rewrite lookup_assign, !lookup_spread.
  destruct (JS.eqb (JS.lit "ts") k); [reflexivity |].
  destruct (Log.last_of k _); [reflexivity |].
  unfold Log.last_of, Log.described.
  destruct error as [e | v]; cbn [rev app Log.lookup].
  - destruct (JS.eqb (JS.lit "stack") k) eqn:E1;
      destruct (JS.eqb (JS.lit "message") k) eqn:E2;
      destruct (JS.eqb (JS.lit "name") k) eqn:E3;
      try reflexivity;
      repeat match goal with
             | H : JS.eqb _ _ = true |- _ => apply JS_eqb_eq in H
             end; subst; discriminate.
  - now destruct (JS.eqb (JS.lit "value") k).
Qed.

Lemma effects_after_first (runs : list (jsstring * Log.JsError)) :
  Log.effects true runs = (true, []).
Proof.
  induction runs as [| [now e] runs IH]; cbn; [reflexivity |].
  now rewrite IH.
Qed.

(** X18. A mounted error boundary logs once: the first run of its effect
    logs the error it was given, under the context "app.errorBoundary"
    with the error's name, message and digest and the instant of the
    call, and no later run logs anything, whether it is a repeated run
    for the same error or a run for a different one. *)
Theorem boundary_logs_once (now : jsstring) (e : Log.JsError)
        (later : list (jsstring * Log.JsError)) :
  Log.effects false ((now, e) :: later)
  = (true,
     [Log.logError now (JS.lit "app.errorBoundary") (Log.IsError e)
        (Some [(JS.lit "digest", Log.optional (Log.digest e))])])
  /\ Log.logError now (JS.lit "app.errorBoundary") (Log.IsError e)
       (Some [(JS.lit "digest", Log.optional (Log.digest e))])
     = (JS.lit "[QuickNotes] app.errorBoundary",
        [(JS.lit "name", Log.Str (Log.name e));
         (JS.lit "message", Log.Str (Log.message e));
         (JS.lit "stack", Log.optional (Log.stack e));
         (JS.lit "digest", Log.optional (Log.digest e));
         (JS.lit "ts", Log.Str now)]).
Proof.
  split; [| reflexivity].
  cbn [Log.effects Log.effect]. now rewrite effects_after_first.
Qed.

(** ** Further runs on the reference backend *)

Lemma refused_draft_aborts_witness :
  run Server.serve (addNote blank_draft) blank_draft (server (Some alice) None)
  = {| ui := blank_draft; backend := server (Some alice) None;
       trace := [Requested GetSession; Alerted content_empty_msg] |}
  /\ run Server.serve (updateNote editing_blank) editing_blank
         (server (Some alice) None)
     = {| ui := editing_blank; backend := server (Some alice) None;
          trace := [Alerted content_empty_msg] |}.
Proof.
  split.
  - apply (proj1 (refused_draft_aborts Server.serve blank_draft blank_draft
                    (server (Some alice) None) (m := content_empty_msg)
                    eq_refl) alice (server (Some alice) None)).
    reflexivity.
  - apply (proj2 (refused_draft_aborts Server.serve editing_blank editing_blank
                    (server (Some alice) None) (m := content_empty_msg)
                    eq_refl)).
    reflexivity.
Defined.

Lemma failed_load_is_silent_witness :
  notes (ui (run Server.serve (loadNotes drafting) drafting
                 (server (Some alice) (Some timeout))))
  = [n2; n1]
  /\ form (ui (run Server.serve (loadNotes drafting) drafting
                   (server (Some alice) (Some timeout))))
     = form drafting
  /\ loading (ui (run Server.serve (loadNotes drafting) drafting
                      (server (Some alice) (Some timeout))))
     = false
  /\ existsb is_alert
       (trace (run Server.serve (loadNotes drafting) drafting
                   (server (Some alice) (Some timeout))))
     = false.
Proof.
  apply (failed_load_is_silent Server.serve drafting drafting
           (server (Some alice) (Some timeout))
           (b1 := server (Some alice) (Some timeout))
           (b2 := server (Some alice) (Some timeout))
           (u := alice) (r := {| data := None; error := Some timeout |}));
    [reflexivity | reflexivity | left; discriminate].
Defined.

Lemma auth_outcomes_witness :
  run Server.serve (signIn initial) initial (server None None)
  = {| ui := initial; backend := server None None;
       trace :=
         [Requested (AuthSignIn [] []);
          Alerted (JS.lit "Invalid login credentials")] |}
  /\ run Server.serve (signIn drafting) drafting (server None None)
     = {| ui := drafting; backend := server (Some alice) None;
          trace :=
            [Requested (AuthSignIn (JS.lit "alice@example.com")
                                   (JS.lit "pw-a"))] |}.
Proof.
  split.
  - destruct (auth_outcomes Server.serve initial initial (server None None))
      as (_ & Hin & _).
    exact (Hin (Some Server.bad_login) (server None None) eq_refl).
  - destruct (auth_outcomes Server.serve drafting drafting (server None None))
      as (_ & Hin & _).
    exact (Hin None (server (Some alice) None) eq_refl).
Defined.

Lemma load_keeps_form_witness :
  form (ui (run Server.serve (loadNotes drafting) drafting
                (server (Some alice) None)))
  = form drafting
  /\ form (ui (run Server.serve (loadNotes editing_n1) editing_n1
                   (server (Some alice) None)))
     = form editing_n1.
Proof.
  split.
  - apply (proj1 (load_keeps_form Server.serve drafting drafting
                    (server (Some alice) None))).
    reflexivity.
  - apply (proj2 (load_keeps_form Server.serve editing_n1 editing_n1
                    (server (Some alice) None))
             alice (server (Some alice) None) [n2; n1]
             (server (Some alice) None)); reflexivity.
Defined.

Lemma form_reset_after_success_witness :
  st_title (ui (run Server.serve (addNote drafting) drafting
                    (server (Some alice) None)))
  = []
  /\ form (ui (run Server.serve (updateNote editing_n1) editing_n1
                   (server (Some alice) None)))
     = (None, [], []).
Proof.
  split.
  - apply (proj1 (form_reset_after_success Server.serve drafting drafting
                    (server (Some alice) None))
             alice (server (Some alice) None)
             {| d_title := JS.lit "Todo"; d_content := JS.lit "call home" |}
             (snd (Server.serve
                     (NotesInsert (user_id alice) (JS.lit "Todo")
                                  (JS.lit "call home"))
                     (server (Some alice) None))));
      reflexivity.
  - apply (proj2 (form_reset_after_success Server.serve editing_n1 editing_n1
                    (server (Some alice) None))
             110%N (JS.lit "1")
             {| d_title := title n1; d_content := content n1 |}
             (snd (Server.serve
                     (NotesUpdate (title n1) (content n1) (id n1))
                     (server (Some alice) None))));
      reflexivity.
Defined.

Lemma click_holds_flag_witness :
  loading (c_ui (spawn OpCreate (submit drafting)
                   (at_rest drafting (server (Some alice) None))))
  = true
  /\ forall a',
       mutating
         (fst (handler
                 (c_ui (spawn OpCreate (submit drafting)
                          (at_rest drafting (server (Some alice) None))))
                 a'))
       = true ->
       enabled
         (c_ui (spawn OpCreate (submit drafting)
                  (at_rest drafting (server (Some alice) None))))
         a'
       = false.
Proof.
  apply (click_holds_flag Server.serve
           (at_rest drafting (server (Some alice) None))
           (a := ClickSubmit)).
  - discriminate.
  - reflexivity.
  - cbn. lia.
Defined.

Lemma callback_order_irrelevant_witness :
  exists c,
    exec Server.serve (at_rest drafting (server (Some alice) None))
         [AuthEvent; Respond 1; Respond 1; Respond 0]
    = Some c
    /\ c_ui c
       = ui (run Server.serve (refreshSession ;; loadNotes initial) drafting
                 (server (Some alice) None)).
Proof.
  eexists. split; [vm_compute; reflexivity |].
  apply (callback_order_irrelevant Server.serve drafting
           (b := server (Some alice) None) []
           [Respond 1; Respond 1; Respond 0]).
  - intros X e. apply serve_reads_pure.
  - reflexivity.
  - vm_compute. reflexivity.
  - reflexivity.
Defined.

Lemma edit_then_save_witness :
  exists c',
    exec Server.serve (at_rest drafting (server (Some alice) None))
         [Ui (ClickEdit n1); Ui ClickSubmit]
    = Some c'
    /\ parked c'
       = parked (at_rest drafting (server (Some alice) None))
         ++ [(OpUpdate,
              Requested (NotesUpdate (JS.trim (title n1))
                                     (JS.trim (content n1)) (id n1)))]
    /\ form (c_ui c') = (Some (id n1), title n1, content n1)
    /\ loading (c_ui c') = true.
Proof.
  apply (edit_then_save Server.serve
           (at_rest drafting (server (Some alice) None)) n1
           (d := {| d_title := title n1; d_content := content n1 |}));
    [reflexivity | reflexivity | discriminate | reflexivity].
Defined.

Lemma edit_then_cancel_witness :
  exists c',
    exec Server.serve (at_rest drafting (server (Some alice) None))
         [Ui (ClickEdit n1); Ui ClickCancel]
    = Some c'
    /\ c_ui c' = closed drafting
    /\ c_tasks c' = []
    /\ c_log c' = []
    /\ c_backend c' = server (Some alice) None.
Proof.
  apply (edit_then_cancel Server.serve
           (at_rest drafting (server (Some alice) None)) n1);
    [reflexivity | reflexivity | discriminate].
Defined.

(** ** Two more facts about the page *)

Section More.

Variable B : Type.
Variable handle : forall X : Type, backendE X -> B -> X * B.

(** X19. The page tells a signed-in user by the e-mail address, not by
    the session: when the session's user has no e-mail, [refreshSession]
    leaves no identity, so the sign-out button and the note form are not
    available, although a reload still lists that user's notes. *)
Theorem identity_needs_email (s : State) (b b1 b2 : B) (u : User)
        (l : list Note) (v : jsstring) :
  handle GetSession b = (Some u, b1) ->
  JS.truthy (user_email u) = false ->
  handle GetSession b1 = (Some u, b1) ->
  handle select_newest_first b1 = ({| data := Some l; error := None |}, b2) ->
  Forall
    (fun a =>
       enabled (ui (run handle (refreshSession ;; loadNotes initial) s b)) a
       = false)
    [ClickSignOut; ClickSubmit; ClickCancel; TypeTitle v; TypeContent v]
  /\ notes (ui (run handle (refreshSession ;; loadNotes initial) s b)) = l.
Proof.
  intros H1 Hu H2 H3. rewrite run_seq. unfold then_run.
  assert (E : run handle refreshSession s b
              = {| ui := apply_ui (SetUserEmail (user_email u)) s;
                   backend := b1; trace := [Requested GetSession] |})
    by (unfold refreshSession; answer H1; reflexivity).
  rewrite E. cbn [ui backend trace].
  rewrite loadNotes_fetched with (1 := H2) (2 := H3).
  cbn [editingId initial]. change (JS.truthy None) with false. cbn [andb].
  repeat constructor; cbn -[JS.truthy]; rewrite ?Hu; reflexivity.
Qed.

(** X20. No function of the page repeats a write: whatever the backend
    answers, a run sends at most one insert, update or delete. *)
Theorem at_most_one_write (snap s : State) (i : jsstring) (b : B) :
  Forall
    (fun p =>
       List.length (filter is_write (trace (run handle p s b))) <= 1)
    [refreshSession; loadNotes snap; signUp snap; signIn snap; signOut;
     addNote snap; deleteNote snap i; updateNote snap].
Proof.
  unfold refreshSession, signUp, signIn, signOut, addNote, deleteNote,
    updateNote, validateNoteOrAlert, loadNotes.
  repeat (apply Forall_cons; [| try apply Forall_nil]);
    answers; cbn; lia.
Qed.

End More.

Lemma identity_needs_email_witness :
  Forall
    (fun a =>
       enabled (ui (run Server.serve (refreshSession ;; loadNotes initial)
                        initial (server (Some guest) None))) a
       = false)
    [ClickSignOut; ClickSubmit; ClickCancel; TypeTitle []; TypeContent []]
  /\ notes (ui (run Server.serve (refreshSession ;; loadNotes initial)
                    initial (server (Some guest) None)))
     = [].
Proof.
  apply (identity_needs_email Server.serve initial
           (server (Some guest) None)
           (b1 := server (Some guest) None) (b2 := server (Some guest) None)
           (u := guest) []); reflexivity.
Defined.

Lemma outstanding_click_blocks_users_witness :
  exists c2,
    exec Server.serve
         (spawn OpCreate (submit drafting)
            (at_rest drafting (server (Some alice) None)))
         (map Ui [TypeTitle (JS.lit "Todo!"); TypeContent (JS.lit "now")])
    = Some c2
    /\ parked c2 = [(OpCreate, Requested GetSession)]
    /\ step Server.serve c2 (Ui ClickSubmit) = None
    /\ step Server.serve c2 (Ui (ClickDelete n2)) = None.
Proof.
  eexists. split; [vm_compute; reflexivity |].
  destruct (@outstanding_click_blocks_users _ Server.serve
              (at_rest drafting (server (Some alice) None)) _ _
              ClickSubmit
              [TypeTitle (JS.lit "Todo!"); TypeContent (JS.lit "now")]
              ltac:(discriminate) eq_refl ltac:(cbn; lia) eq_refl)
    as (_ & _ & _ & Hno).
  split; [reflexivity |].
  split; apply Hno; reflexivity.
Defined.
